(** * sslyze: certificate information rendering and the picklable Certificate

    A shallow embedding of
      - [sslyze/plugins/certificate_info/_cli_connector.py]
        (class [_CertificateInfoCliConnector], function [_get_name_as_short_text]);
      - [sslyze/plugins/utils/certificate.py] (class [Certificate]).

    Python exceptions are results of an error type; every function that can
    raise returns a [Result].  Attributes of objects coming from libraries
    (cryptography's certificates, nassl's OCSP dictionary) are record fields
    holding the value the attribute or method call yields: the records stand
    for objects on which these reads succeed.  A certificate whose signature
    algorithm or key the library cannot decode, and a dictionary that lacks
    one of the keys, are outside the model, and nothing is stated about
    them. *)

From Stdlib Require Import String Ascii List ZArith Bool Lia DecimalString.
From Stdlib.Strings Require Import Byte.
Import ListNotations.
Open Scope string_scope.
Open Scope Z_scope.

Set Implicit Arguments.

(** ** Exceptions and results *)

Inductive PyException : Type :=
| IndexError
| KeyError (key : string)
| AttributeError
| RuntimeError (msg : string).

Inductive Result (A : Type) : Type :=
| Ok (value : A)
| Raise (exn : PyException).

Arguments Ok {A} value.
Arguments Raise {A} exn.

Definition bind {A B : Type} (m : Result A) (k : A -> Result B) : Result B :=
  match m with
  | Ok a => k a
  | Raise e => Raise e
  end.

Notation "x <- m ;; k" := (bind m (fun x => k))
  (at level 61, m at next level, right associativity).

(** [try: body / except KeyError: handler]. *)
Definition try_except_KeyError {A : Type} (body handler : Result A) : Result A :=
  match body with
  | Raise (KeyError _) => handler
  | other => other
  end.

(** [seq[i]] on a list, for a non-negative literal index. *)
Definition getitem {A : Type} (seq : list A) (i : nat) : Result A :=
  match nth_error seq i with
  | Some a => Ok a
  | None => Raise IndexError
  end.

(** ** Built-in string operations *)

(** [str(n)] for an int. *)
Definition str_of_int (n : Z) : string := NilZero.string_of_int (Z.to_int n).

(** [needle in hay] for two strings. *)
Fixpoint contains (needle hay : string) : bool :=
  if prefix needle hay then true
  else match hay with
       | EmptyString => false
       | String _ rest => contains needle rest
       end.

Definition hex_digit (n : N) : ascii :=
  match get (N.to_nat n) "0123456789abcdef" with
  | Some c => c
  | None => "0"%char
  end.

(** [binascii.hexlify(data).decode("ascii")]. *)
Fixpoint hexlify (data : list byte) : string :=
  match data with
  | [] => EmptyString
  | b :: rest =>
      let n := Byte.to_N b in
      String (hex_digit (N.div n 16)) (String (hex_digit (N.modulo n 16)) (hexlify rest))
  end.

Fixpoint zeros (n : nat) : string :=
  match n with
  | O => EmptyString
  | S m => String "0"%char (zeros m)
  end.

(** A number without sign padded with zeros on the left up to [width]
    characters, as the [%04d] and [%02d] of [date.isoformat]. *)
Definition zero_fill (width : nat) (s : string) : string :=
  zeros (width - String.length s) ++ s.

(** Python truth value of an [Optional[bool]] and of an [Optional[List]]. *)
Definition truthy (v : option bool) : bool :=
  match v with
  | Some true => true
  | _ => false
  end.

Definition truthy_list {A : Type} (v : option (list A)) : bool :=
  match v with
  | Some (_ :: _) => true
  | _ => false
  end.

(** What the renderer takes from its environment: the formatting methods
    inherited from [ScanCommandCliConnector] (plugin_base) and the built-ins
    [str] on a list of strings and [hash] on a string. *)
Class ScanCommandCliConnector : Type := {
  _format_title : string -> string;
  _format_subtitle : string -> string;
  _format_field : string -> string -> string;
}.

Class PyBuiltins : Type := {
  str_of_list : list string -> string;
  hash : string -> Z;
}.

(** ** cryptography's x509 objects, as far as the connector reads them *)

Module x509.

Definition COMMON_NAME : string := "2.5.4.3".

Record NameAttribute : Type := {
  oid : string;
  value : string;
}.

Record Name : Type := {
  attributes : list NameAttribute;
  rfc4514_string : string;
}.

Record date : Type := {
  year : Z;
  month : Z;
  day : Z;
}.

(** [date.isoformat()]: YYYY-MM-DD. *)
Definition isoformat (d : date) : string :=
  zero_fill 4 (str_of_int (year d)) ++ "-" ++
  zero_fill 2 (str_of_int (month d)) ++ "-" ++
  zero_fill 2 (str_of_int (day d)).

(** [certificate.public_key()]; [class_name] is [__class__.__name__]. *)
Inductive PublicKey : Type :=
| EllipticCurvePublicKey (class_name : string) (curve_name : string) (curve_key_size : Z)
| RSAPublicKey (class_name : string) (key_size : Z) (e : Z)
| OtherPublicKey (class_name : string).

Definition class_name_of (k : PublicKey) : string :=
  match k with
  | EllipticCurvePublicKey n _ _ => n
  | RSAPublicKey n _ _ => n
  | OtherPublicKey n => n
  end.

(** A certificate that cryptography decodes in full: the reads of
    [signature_hash_algorithm] and [public_key()], which raise on an
    algorithm or a key the library does not support, have succeeded and the
    fields hold what they returned. *)
Record Certificate : Type := {
  fingerprint_sha1 : list byte;
  subject : Name;
  issuer : Name;
  serial_number : Z;
  not_valid_before : date;
  not_valid_after : date;
  signature_hash_algorithm_name : string;
  public_key : PublicKey;
  (** DNS entries of the subject-alternative-name extension, [None] when
      the certificate has no such extension. *)
  dns_subject_alternative_names : option (list string);
}.

End x509.

(** Modelled from the spec: [_certificate_utils.get_common_names] is not among
    the sources.  "if it contains at least one Common Name attribute, the
    first such value is the display form": the values of the Common Name
    attributes, in order. *)
Definition get_common_names (name_field : x509.Name) : list string :=
  map x509.value
      (filter (fun a => String.eqb (x509.oid a) x509.COMMON_NAME) (x509.attributes name_field)).

(** Modelled from the spec: [_certificate_utils.extract_dns_subject_alternative_names]
    is not among the sources.  "Subject-alternative-name extraction is
    optional: a certificate lacking the extension yields an explicit 'not
    present' marker, not an error": the DNS names of the extension, and for
    a certificate without the extension the empty list of names, returned
    without failure. *)
Definition extract_dns_subject_alternative_names (certificate : x509.Certificate)
  : list string :=
  match x509.dns_subject_alternative_names certificate with
  | Some names => names
  | None => []
  end.

Definition _get_name_as_short_text (name_field : x509.Name) : string :=
  let common_names := get_common_names name_field in
  match common_names with
  | first :: _ => first
  | [] => x509.rfc4514_string name_field
  end.

(** ** The scan result, as far as the connector reads it *)

(** [nassl.ocsp_response.OcspResponseStatusEnum]. *)
Inductive OcspResponseStatusEnum : Type :=
| SUCCESSFUL
| MALFORMED_REQUEST
| INTERNAL_ERROR
| TRY_LATER
| SIG_REQUIRED
| UNAUTHORIZED.

Definition OcspResponseStatusEnum_name (s : OcspResponseStatusEnum) : string :=
  match s with
  | SUCCESSFUL => "SUCCESSFUL"
  | MALFORMED_REQUEST => "MALFORMED_REQUEST"
  | INTERNAL_ERROR => "INTERNAL_ERROR"
  | TRY_LATER => "TRY_LATER"
  | SIG_REQUIRED => "SIG_REQUIRED"
  | UNAUTHORIZED => "UNAUTHORIZED"
  end.

Definition OcspResponseStatusEnum_eqb (a b : OcspResponseStatusEnum) : bool :=
  match a, b with
  | SUCCESSFUL, SUCCESSFUL
  | MALFORMED_REQUEST, MALFORMED_REQUEST
  | INTERNAL_ERROR, INTERNAL_ERROR
  | TRY_LATER, TRY_LATER
  | SIG_REQUIRED, SIG_REQUIRED
  | UNAUTHORIZED, UNAUTHORIZED => true
  | _, _ => false
  end.

(** [result.ocsp_response_status != OcspResponseStatusEnum.SUCCESSFUL]; the
    attribute is an [Optional], and [None] differs from every member. *)
Definition is_not_SUCCESSFUL (status : option OcspResponseStatusEnum) : bool :=
  match status with
  | Some s => negb (OcspResponseStatusEnum_eqb s SUCCESSFUL)
  | None => true
  end.

(** One entry of [ocsp_response["responses"]]; [serialNumber] is
    [entry["certID"]["serialNumber"]]. *)
Record CertID : Type := {
  serialNumber : string;
}.

Record SingleResponse : Type := {
  certStatus : string;
  certID : CertID;
  thisUpdate : string;
  nextUpdate : string;
}.

(** The dictionary nassl decodes an OCSP response into, with the keys the
    connector subscripts: a dictionary that has them all, so no subscript
    of a key fails; only the list of responses may be too short. *)
Record OcspResponseDict : Type := {
  responseStatus : string;
  responderID : string;
  responses : list SingleResponse;
}.

(** [ev_oids] stands for the truth value of the attribute, the only thing the
    connector takes from it. *)
Record TrustStore : Type := {
  ts_name : string;
  ts_version : string;
  ev_oids : bool;
}.

Record PathValidationResult : Type := {
  trust_store : TrustStore;
  was_validation_successful : bool;
  pvr_verified_certificate_chain : option (list x509.Certificate);
  openssL_verify_string : string;
}.

(** A value of an attribute that the code tests with [is None], [is True]
    and [is False]. *)
Inductive PyValue : Type :=
| PyNone
| PyBool (b : bool)
| PyInt (n : Z)
| PyStr (s : string).

Record CertificateInfoScanResult : Type := {
  hostname_used_for_server_name_indication : string;
  received_certificate_chain : list x509.Certificate;
  path_validation_results : list PathValidationResult;
  verified_certificate_chain : option (list x509.Certificate);
  leaf_certificate_subject_matches_hostname : bool;
  leaf_certificate_is_ev : bool;
  leaf_certificate_has_must_staple_extension : bool;
  leaf_certificate_signed_certificate_timestamps_count : option Z;
  received_chain_has_valid_order : bool;
  received_chain_contains_anchor_certificate : option bool;
  verified_chain_has_sha1_signature : option bool;
  verified_chain_has_legacy_symantec_anchor : PyValue;
  ocsp_response : option OcspResponseDict;
  ocsp_response_status : option OcspResponseStatusEnum;
  ocsp_response_is_trusted : option bool;
}.

(** ** [_CertificateInfoCliConnector] *)

Section CliConnector.

Context {connector : ScanCommandCliConnector} {builtins : PyBuiltins}.

Definition TRUST_FORMAT (store_name store_version : string) : string :=
  store_name ++ " CA Store (" ++ store_version ++ "):".

Definition NO_VERIFIED_CHAIN_ERROR_TXT : string :=
  "ERROR - Could not build verified chain (certificate untrusted?)".

(** The two key-dependent lines of [_get_basic_certificate_text]. *)
Definition public_key_text (public_key : x509.PublicKey) : list string :=
  match public_key with
  | x509.EllipticCurvePublicKey _ curve_name curve_key_size =>
      [_format_field "Key Size:" (str_of_int curve_key_size);
       _format_field "Curve:" curve_name]
  | x509.RSAPublicKey _ key_size e =>
      [_format_field "Key Size:" (str_of_int key_size);
       _format_field "Exponent:" (str_of_int e)]
  | x509.OtherPublicKey _ => []
  end.

Definition _get_basic_certificate_text (result : CertificateInfoScanResult)
  : Result (list string) :=
  certificate <- getitem (received_certificate_chain result) 0 ;;
  let text_output :=
    [ _format_field "SHA1 Fingerprint:" (hexlify (x509.fingerprint_sha1 certificate));
      _format_field "Common Name:" (_get_name_as_short_text (x509.subject certificate));
      _format_field "Issuer:" (_get_name_as_short_text (x509.issuer certificate));
      _format_field "Serial Number:" (str_of_int (x509.serial_number certificate));
      _format_field "Not Before:" (x509.isoformat (x509.not_valid_before certificate));
      _format_field "Not After:" (x509.isoformat (x509.not_valid_after certificate));
      _format_field "Signature Algorithm:" (x509.signature_hash_algorithm_name certificate);
      _format_field "Public Key Algorithm:" (x509.class_name_of (x509.public_key certificate)) ] in
  let text_output := (text_output ++ public_key_text (x509.public_key certificate))%list in
  try_except_KeyError
    (Ok (text_output ++
         [_format_field "DNS Subject Alternative Names:"
            (str_of_list (extract_dns_subject_alternative_names certificate))])%list)
    (Ok text_output).

Definition hostname_validation_text (result : CertificateInfoScanResult) : string :=
  let server_name_indication := hostname_used_for_server_name_indication result in
  if leaf_certificate_subject_matches_hostname result
  then "OK - Certificate matches " ++ server_name_indication
  else "FAILED - Certificate does NOT match " ++ server_name_indication.

Definition path_txt (result : CertificateInfoScanResult) (path_result : PathValidationResult)
  : string :=
  if was_validation_successful path_result then
    let ev_txt :=
      if leaf_certificate_is_ev result && ev_oids (trust_store path_result)
      then ", Extended Validation" else "" in
    "OK - Certificate is trusted" ++ ev_txt
  else
    "FAILED - Certificate is NOT Trusted: " ++ openssL_verify_string path_result.

(** The line appended by one turn of the loop over the path results. *)
Definition path_validation_line (result : CertificateInfoScanResult)
           (path_result : PathValidationResult) : string :=
  _format_field
    (TRUST_FORMAT (ts_name (trust_store path_result)) (ts_version (trust_store path_result)))
    (path_txt result path_result).

Definition symantec_str (result : CertificateInfoScanResult) : Result string :=
  match verified_chain_has_legacy_symantec_anchor result with
  | PyNone => Ok NO_VERIFIED_CHAIN_ERROR_TXT
  | PyBool true => Ok "WARNING: Certificate distrusted by Google and Mozilla since 2018"
  | PyBool false => Ok "OK - Not a Symantec-issued certificate"
  | _ => Raise (RuntimeError "Should never happen")
  end.

Definition cns_in_certificate_chain (chain : list x509.Certificate) : list string :=
  map (fun cert => _get_name_as_short_text (x509.subject cert)) chain.

Definition verified_chain_txt (result : CertificateInfoScanResult) : string :=
  match verified_certificate_chain result with
  | Some (c :: chain) => String.concat " --> " (cns_in_certificate_chain (c :: chain))
  | _ => NO_VERIFIED_CHAIN_ERROR_TXT
  end.

Definition chain_with_anchor_txt (result : CertificateInfoScanResult) : string :=
  if truthy_list (verified_certificate_chain result) then
    if negb (truthy (received_chain_contains_anchor_certificate result))
    then "OK - Anchor certificate not sent"
    else "WARNING - Received certificate chain contains the anchor certificate"
  else NO_VERIFIED_CHAIN_ERROR_TXT.

Definition chain_order_txt (result : CertificateInfoScanResult) : string :=
  if received_chain_has_valid_order result
  then "OK - Order is valid"
  else "FAILED - Certificate chain out of order!".

Definition sha1_text (result : CertificateInfoScanResult) : string :=
  if truthy_list (verified_certificate_chain result) then
    if negb (truthy (verified_chain_has_sha1_signature result))
    then "OK - No SHA1-signed certificate in the verified certificate chain"
    else "INSECURE - SHA1-signed certificate in the verified certificate chain"
  else NO_VERIFIED_CHAIN_ERROR_TXT.

Definition must_staple_txt (result : CertificateInfoScanResult) : string :=
  if leaf_certificate_has_must_staple_extension result
  then "OK - Extension present"
  else "NOT SUPPORTED - Extension not found".

Definition sct_txt (scts_count : option Z) : string :=
  match scts_count with
  | None => "OK - Extension present"
  | Some n =>
      if n =? 0 then "NOT SUPPORTED - Extension not found"
      else if n <? 3 then
        "WARNING - Only " ++ str_of_int n ++ " SCTs included but Google recommends 3 or more"
      else "OK - " ++ str_of_int n ++ " SCTs included"
  end.

(** The lines appended after the "OCSP Stapling" subtitle. *)
Definition ocsp_resp_txt (result : CertificateInfoScanResult) : Result (list string) :=
  match ocsp_response result with
  | None =>
      Ok [_format_field "" "NOT SUPPORTED - Server did not send back an OCSP response"]
  | Some response =>
      if is_not_SUCCESSFUL (ocsp_response_status result) then
        status_name <- match ocsp_response_status result with
                       | Some s => Ok (OcspResponseStatusEnum_name s)
                       | None => Raise AttributeError
                       end ;;
        Ok [_format_field "" ("ERROR - OCSP response status is not successful: " ++ status_name)]
      else
        let ocsp_trust_txt :=
          if truthy (ocsp_response_is_trusted result)
          then "OK - Response is trusted"
          else "FAILED - Response is NOT trusted" in
        let ocsp_resp_txt :=
          [ _format_field "OCSP Response Status:" (responseStatus response);
            _format_field "Validation w/ Mozilla Store:" ocsp_trust_txt;
            _format_field "Responder Id:" (responderID response) ] in
        if contains "successful" (responseStatus response) then
          first <- getitem (responses response) 0 ;;
          Ok (ocsp_resp_txt ++
              [ _format_field "Cert Status:" (certStatus first);
                _format_field "Cert Serial Number:" (serialNumber (certID first));
                _format_field "This Update:" (thisUpdate first);
                _format_field "Next Update:" (nextUpdate first) ])%list
        else Ok ocsp_resp_txt
  end.

(** Everything between the certificate text and the Symantec line. *)
Definition trust_lines (result : CertificateInfoScanResult) : list string :=
  ([ "";
    _format_subtitle "Trust";
    _format_field "Hostname used for SNI:" (hostname_used_for_server_name_indication result);
    _format_field "Hostname Validation:" (hostname_validation_text result) ]
  ++ map (path_validation_line result) (path_validation_results result))%list.

(** Everything between the Symantec line and the OCSP lines. *)
Definition chain_and_extension_lines (result : CertificateInfoScanResult) : list string :=
  [ _format_field "Received Chain:"
      (String.concat " --> " (cns_in_certificate_chain (received_certificate_chain result)));
    _format_field "Verified Chain:" (verified_chain_txt result);
    _format_field "Received Chain Contains Anchor:" (chain_with_anchor_txt result);
    _format_field "Received Chain Order:" (chain_order_txt result);
    _format_field "Verified Chain contains SHA1:" (sha1_text result);
    "";
    _format_subtitle "Extensions";
    _format_field "OCSP Must-Staple:" (must_staple_txt result);
    _format_field "Certificate Transparency:"
      (sct_txt (leaf_certificate_signed_certificate_timestamps_count result));
    "";
    _format_subtitle "OCSP Stapling" ].

Definition result_to_console_output (result : CertificateInfoScanResult)
  : Result (list string) :=
  let result_as_txt := [_format_title "Certificate Information"] in
  basic <- _get_basic_certificate_text result ;;
  let result_as_txt := (result_as_txt ++ basic)%list in
  let result_as_txt := (result_as_txt ++ trust_lines result)%list in
  symantec <- symantec_str result ;;
  let result_as_txt :=
    (result_as_txt ++ [_format_field "Symantec 2018 Deprecation:" symantec])%list in
  let result_as_txt := (result_as_txt ++ chain_and_extension_lines result)%list in
  ocsp <- ocsp_resp_txt result ;;
  Ok (result_as_txt ++ ocsp)%list.

End CliConnector.

(** ** Fields derived from the verified chain *)

Section DerivedChecks.

(** The evaluations of a verified chain that collaborators own: whether its
    anchor is a distrusted legacy root, whether one of its certificates is
    signed with SHA-1, and whether its anchor is in a received chain. *)
Variable anchor_is_legacy_distrusted : list x509.Certificate -> bool.
Variable chain_has_sha1_signature : list x509.Certificate -> bool.
Variable received_contains_anchor : list x509.Certificate -> list x509.Certificate -> bool.

(** Modelled from the spec: the scan result class (implementation.py) is not
    among the sources.  "the result of attempting to build/verify a chain
    against one named, versioned trust store: success/failure, resulting
    verified chain (if any)"; the verified chain of a scan is the one of the
    first store that produced one, and there is none "if no store produced
    a verified chain". *)
Definition first_verified_chain (outcomes : list PathValidationResult)
  : option (list x509.Certificate) :=
  match find was_validation_successful outcomes with
  | Some outcome => pvr_verified_certificate_chain outcome
  | None => None
  end.

(** Modelled from the spec: the code filling the scan result in
    (implementation.py) is not among the sources.  "any field whose
    computation requires a verified chain that does not exist must expose a
    distinct Unknown value": legacy-CA distrust, SHA-1 presence and anchor
    inclusion are evaluated on the verified chain and are [None] without
    one; every other field is passed through. *)
Definition with_derived_checks (result : CertificateInfoScanResult)
  : CertificateInfoScanResult :=
  let chain := first_verified_chain (path_validation_results result) in
  {| hostname_used_for_server_name_indication := hostname_used_for_server_name_indication result;
     received_certificate_chain := received_certificate_chain result;
     path_validation_results := path_validation_results result;
     verified_certificate_chain := chain;
     leaf_certificate_subject_matches_hostname := leaf_certificate_subject_matches_hostname result;
     leaf_certificate_is_ev := leaf_certificate_is_ev result;
     leaf_certificate_has_must_staple_extension := leaf_certificate_has_must_staple_extension result;
     leaf_certificate_signed_certificate_timestamps_count :=
       leaf_certificate_signed_certificate_timestamps_count result;
     received_chain_has_valid_order := received_chain_has_valid_order result;
     received_chain_contains_anchor_certificate :=
       option_map (received_contains_anchor (received_certificate_chain result)) chain;
     verified_chain_has_sha1_signature := option_map chain_has_sha1_signature chain;
     verified_chain_has_legacy_symantec_anchor :=
       match chain with
       | Some verified => PyBool (anchor_is_legacy_distrusted verified)
       | None => PyNone
       end;
     ocsp_response := ocsp_response result;
     ocsp_response_status := ocsp_response_status result;
     ocsp_response_is_trusted := ocsp_response_is_trusted result |}.

End DerivedChecks.

(** ** [sslyze/plugins/utils/certificate.py] *)

Module certificate.

(** A dict with string keys is the list of its items, in iteration order. *)
Definition Dict (V : Type) : Type := list (string * V).

(** [d[key]]. *)
Fixpoint dict_getitem {V : Type} (d : Dict V) (key : string) : Result V :=
  match d with
  | [] => Raise (KeyError key)
  | (k, v) :: rest => if String.eqb k key then Ok v else dict_getitem rest key
  end.

(** [as_dict] maps a section name ('subject', 'issuer', ...) to the dict of
    its entries. *)
Record Certificate : Type := {
  as_pem : string;
  as_text : string;
  as_dict : Dict (Dict string);
  sha1_fingerprint : string;
  hpkp_pin : string;
}.

(** The right operand of [==]: an instance of the class or something else. *)
Inductive PyObject : Type :=
| Instance (c : Certificate)
| Other (v : PyValue).

Definition __eq__ (self : Certificate) (other : PyObject) : bool :=
  match other with
  | Instance o => String.eqb (as_pem self) (as_pem o)
  | Other _ => false
  end.

Definition __ne__ (self : Certificate) (other : PyObject) : bool :=
  negb (__eq__ self other).

Definition __hash__ {builtins : PyBuiltins} (self : Certificate) : Z :=
  hash (as_pem self).

Definition printable_subject_name (self : Certificate) : Result string :=
  try_except_KeyError
    (subject <- dict_getitem (as_dict self) "subject" ;;
     dict_getitem subject "commonName")
    (try_except_KeyError
       (subject <- dict_getitem (as_dict self) "subject" ;;
        dict_getitem subject "organizationalUnitName")
       (Ok "No Common Name")).

(** [u'{}: {}'.format(key, value)]. *)
Definition format_item (item : string * string) : string :=
  fst item ++ ": " ++ snd item.

Definition printable_issuer_name (self : Certificate) : Result string :=
  try_except_KeyError
    (subject <- dict_getitem (as_dict self) "subject" ;;
     dict_getitem subject "commonName")
    (issuer <- dict_getitem (as_dict self) "issuer" ;;
     Ok (String.concat " - " (map format_item issuer))).

End certificate.

(** ** An environment to run the code in *)

Fixpoint spaces (n : nat) : string :=
  match n with
  | O => EmptyString
  | S m => String " "%char (spaces m)
  end.

Definition ljust (width : nat) (s : string) : string :=
  s ++ spaces (width - String.length s).

(** A console connector: titles, subtitles indented by five and fields by
    seven, the name of a field filled up to 35 columns. *)
Definition console_connector : ScanCommandCliConnector :=
  {| _format_title := fun title => " * " ++ title ++ ":";
     _format_subtitle := fun subtitle => "     " ++ subtitle;
     _format_field := fun title value => "       " ++ ljust 35 title ++ value |}.

(** Built-ins for names without quotes or escapes, and a hash by length. *)
Definition plain_builtins : PyBuiltins :=
  {| str_of_list := fun names =>
       "[" ++ String.concat ", " (map (fun n => "'" ++ n ++ "'") names) ++ "]";
     hash := fun s => Z.of_nat (String.length s) |}.

(** ** Predicates and sample data used by the statements *)

(** The declared domain of [verified_chain_has_legacy_symantec_anchor]:
    [Optional[bool]]. *)
Definition in_declared_domain (v : PyValue) : bool :=
  match v with
  | PyNone | PyBool _ => true
  | PyInt _ | PyStr _ => false
  end.

(** The scan results on which the OCSP lines can be produced. *)
Definition ocsp_renders (result : CertificateInfoScanResult) : bool :=
  match ocsp_response result, ocsp_response_status result with
  | None, _ => true
  | Some _, None => false
  | Some response, Some status =>
      negb (OcspResponseStatusEnum_eqb status SUCCESSFUL)
      || negb (contains "successful" (responseStatus response))
      || negb (Nat.eqb (List.length (responses response)) 0)
  end.

(** The scan results on which [result_to_console_output] returns. *)
Definition renders (result : CertificateInfoScanResult) : bool :=
  negb (Nat.eqb (List.length (received_certificate_chain result)) 0)
  && in_declared_domain (verified_chain_has_legacy_symantec_anchor result)
  && ocsp_renders result.

(** [result] with another trust outcome: the path validation results, the
    verified chain and the three fields evaluated on the verified chain are
    replaced, every other field is kept. *)
Definition with_trust_outcome (result : CertificateInfoScanResult)
           (outcomes : list PathValidationResult)
           (verified : option (list x509.Certificate))
           (anchor sha1 symantec : option bool) : CertificateInfoScanResult :=
  {| hostname_used_for_server_name_indication := hostname_used_for_server_name_indication result;
     received_certificate_chain := received_certificate_chain result;
     path_validation_results := outcomes;
     verified_certificate_chain := verified;
     leaf_certificate_subject_matches_hostname := leaf_certificate_subject_matches_hostname result;
     leaf_certificate_is_ev := leaf_certificate_is_ev result;
     leaf_certificate_has_must_staple_extension := leaf_certificate_has_must_staple_extension result;
     leaf_certificate_signed_certificate_timestamps_count :=
       leaf_certificate_signed_certificate_timestamps_count result;
     received_chain_has_valid_order := received_chain_has_valid_order result;
     received_chain_contains_anchor_certificate := anchor;
     verified_chain_has_sha1_signature := sha1;
     verified_chain_has_legacy_symantec_anchor :=
       match symantec with
       | Some b => PyBool b
       | None => PyNone
       end;
     ocsp_response := ocsp_response result;
     ocsp_response_status := ocsp_response_status result;
     ocsp_response_is_trusted := ocsp_response_is_trusted result |}.

Section BasicFields.

Context {connector : ScanCommandCliConnector}.

(** The lines of [_get_basic_certificate_text] that come before the
    subject-alternative-name line. *)
Definition basic_fields (certificate : x509.Certificate) : list string :=
  ([ _format_field "SHA1 Fingerprint:" (hexlify (x509.fingerprint_sha1 certificate));
     _format_field "Common Name:" (_get_name_as_short_text (x509.subject certificate));
     _format_field "Issuer:" (_get_name_as_short_text (x509.issuer certificate));
     _format_field "Serial Number:" (str_of_int (x509.serial_number certificate));
     _format_field "Not Before:" (x509.isoformat (x509.not_valid_before certificate));
     _format_field "Not After:" (x509.isoformat (x509.not_valid_after certificate));
     _format_field "Signature Algorithm:" (x509.signature_hash_algorithm_name certificate);
     _format_field "Public Key Algorithm:" (x509.class_name_of (x509.public_key certificate)) ]
   ++ public_key_text (x509.public_key certificate))%list.

End BasicFields.

Module Sample.

Definition name (cn : string) : x509.Name :=
  {| x509.attributes := [ {| x509.oid := "2.5.4.10"; x509.value := "Example Org" |};
                          {| x509.oid := x509.COMMON_NAME; x509.value := cn |} ];
     x509.rfc4514_string := "CN=" ++ cn ++ ",O=Example Org" |}.

Definition cert (cn issuer_cn : string) (san : option (list string)) : x509.Certificate :=
  {| x509.fingerprint_sha1 := [x0a; xff; x10]%byte;
     x509.subject := name cn;
     x509.issuer := name issuer_cn;
     x509.serial_number := 4660;
     x509.not_valid_before := {| x509.year := 2019; x509.month := 3; x509.day := 7 |};
     x509.not_valid_after := {| x509.year := 2020; x509.month := 11; x509.day := 21 |};
     x509.signature_hash_algorithm_name := "sha256";
     x509.public_key := x509.RSAPublicKey "_RSAPublicKey" 2048 65537;
     x509.dns_subject_alternative_names := san |}.

Definition leaf : x509.Certificate := cert "example.com" "Example CA" (Some ["example.com"]).
Definition leaf_without_san : x509.Certificate := cert "example.com" "Example CA" None.
Definition intermediate : x509.Certificate := cert "Example CA" "Example Root" None.
Definition root : x509.Certificate := cert "Example Root" "Example Root" None.

Definition mozilla : TrustStore :=
  {| ts_name := "Mozilla"; ts_version := "v1"; ev_oids := true |}.
Definition windows : TrustStore :=
  {| ts_name := "Windows"; ts_version := "v2"; ev_oids := false |}.

Definition trusted (store : TrustStore) : PathValidationResult :=
  {| trust_store := store;
     was_validation_successful := true;
     pvr_verified_certificate_chain := Some [leaf; intermediate; root];
     openssL_verify_string := "ok" |}.

Definition untrusted (store : TrustStore) : PathValidationResult :=
  {| trust_store := store;
     was_validation_successful := false;
     pvr_verified_certificate_chain := None;
     openssL_verify_string := "unable to get local issuer certificate" |}.

Definition good_response : OcspResponseDict :=
  {| responseStatus := "successful";
     responderID := "C = US, O = Example, CN = OCSP";
     responses := [ {| certStatus := "good";
                       certID := {| serialNumber := "1234" |};
                       thisUpdate := "Mar  7 00:00:00 2019 GMT";
                       nextUpdate := "Mar 14 00:00:00 2019 GMT" |} ] |}.

Definition empty_response : OcspResponseDict :=
  {| responseStatus := "successful";
     responderID := "C = US, O = Example, CN = OCSP";
     responses := [] |}.

(** A scan of a three-certificate chain that no store trusts, with the
    given received chain, Symantec field, SCT count and OCSP attributes. *)
Definition untrusted_scan (chain : list x509.Certificate) (symantec : PyValue)
           (scts : option Z) (ocsp : option OcspResponseDict)
           (status : option OcspResponseStatusEnum) : CertificateInfoScanResult :=
  {| hostname_used_for_server_name_indication := "example.com";
     received_certificate_chain := chain;
     path_validation_results := [untrusted mozilla; untrusted windows];
     verified_certificate_chain := None;
     leaf_certificate_subject_matches_hostname := true;
     leaf_certificate_is_ev := true;
     leaf_certificate_has_must_staple_extension := false;
     leaf_certificate_signed_certificate_timestamps_count := scts;
     received_chain_has_valid_order := true;
     received_chain_contains_anchor_certificate := None;
     verified_chain_has_sha1_signature := None;
     verified_chain_has_legacy_symantec_anchor := symantec;
     ocsp_response := ocsp;
     ocsp_response_status := status;
     ocsp_response_is_trusted := option_map (fun _ => true) ocsp |}.

Definition chain : list x509.Certificate := [leaf; intermediate; root].

Definition plain_scan (scts : option Z) : CertificateInfoScanResult :=
  untrusted_scan chain PyNone scts None None.

(** A scan of a chain received out of order, that one store trusts all the
    same. *)
Definition out_of_order_scan : CertificateInfoScanResult :=
  {| hostname_used_for_server_name_indication := "example.com";
     received_certificate_chain := [leaf; root; intermediate];
     path_validation_results := [trusted mozilla; untrusted windows];
     verified_certificate_chain := Some chain;
     leaf_certificate_subject_matches_hostname := true;
     leaf_certificate_is_ev := false;
     leaf_certificate_has_must_staple_extension := false;
     leaf_certificate_signed_certificate_timestamps_count := Some 3;
     received_chain_has_valid_order := false;
     received_chain_contains_anchor_certificate := Some true;
     verified_chain_has_sha1_signature := Some false;
     verified_chain_has_legacy_symantec_anchor := PyBool false;
     ocsp_response := None;
     ocsp_response_status := None;
     ocsp_response_is_trusted := None |}.

Definition pem_a : string := "-----BEGIN CERTIFICATE-----AAAA-----END CERTIFICATE-----".

Definition pickled (text : string) (issuer : certificate.Dict string)
  : certificate.Certificate :=
  {| certificate.as_pem := pem_a;
     certificate.as_text := text;
     certificate.as_dict :=
       [ ("subject", [("organizationName", "Example Org"); ("commonName", "example.com")]);
         ("issuer", issuer) ];
     certificate.sha1_fingerprint := "0aff10";
     certificate.hpkp_pin := "pin" |}.

Definition without_common_name : certificate.Certificate :=
  {| certificate.as_pem := pem_a;
     certificate.as_text := "text";
     certificate.as_dict :=
       [ ("subject", [("organizationName", "Example Org")]);
         ("issuer", [("countryName", "US"); ("commonName", "Example CA")]) ];
     certificate.sha1_fingerprint := "0aff10";
     certificate.hpkp_pin := "pin" |}.

End Sample.

(** ** [Certificate.from_nassl] *)

(** [s.split(sep)[0]] for a non-empty separator: what comes before the first
    occurrence of [sep], the whole of [s] without one. *)
Fixpoint before_first (sep s : string) : string :=
  if prefix sep s then EmptyString
  else match s with
       | EmptyString => EmptyString
       | String c rest => String c (before_first sep rest)
       end.

(** [key in d.keys()]. *)
Fixpoint dict_contains {V : Type} (d : certificate.Dict V) (key : string) : bool :=
  match d with
  | [] => false
  | (k, _) :: rest => String.eqb k key || dict_contains rest key
  end.

(** [d[key] = v]: the entry of an existing key is replaced in place, a new
    key is added at the end. *)
Fixpoint dict_setitem {V : Type} (d : certificate.Dict V) (key : string) (v : V)
  : certificate.Dict V :=
  match d with
  | [] => [(key, v)]
  | (k, old) :: rest =>
      if String.eqb k key then (k, v) :: rest else (k, old) :: dict_setitem rest key v
  end.

Module nassl.

(** What [from_nassl] calls on an [nassl.x509_certificate.X509Certificate]. *)
Record X509Certificate : Type := {
  as_dict : certificate.Dict (certificate.Dict string);
  as_pem : string;
  as_text : string;
  get_SHA1_fingerprint : string;
  get_hpkp_pin : string;
}.

End nassl.

(** The body of the inner [if] of [from_nassl] on one value of the dict. *)
Definition remove_bit_suffix (value : certificate.Dict string) : certificate.Dict string :=
  if dict_contains value "publicKeySize" then
    match certificate.dict_getitem value "publicKeySize" with
    | Ok size => dict_setitem value "publicKeySize" (before_first " bit" size)
    | Raise _ => value
    end
  else value.

(** The loop of [from_nassl] over the items of [cert_dict]. *)
Definition remove_bit_suffixes (cert_dict : certificate.Dict (certificate.Dict string))
  : certificate.Dict (certificate.Dict string) :=
  map (fun item =>
         if contains "subjectPublicKeyInfo" (fst item)
         then (fst item, remove_bit_suffix (snd item))
         else item)
      cert_dict.

Section FromNassl.

(** [unicode.strip()], taken as it is. *)
Variable strip : string -> string.

Definition from_nassl (nassl_x509_certificate : nassl.X509Certificate)
  : certificate.Certificate :=
  let cert_dict := remove_bit_suffixes (nassl.as_dict nassl_x509_certificate) in
  {| certificate.as_pem := strip (nassl.as_pem nassl_x509_certificate);
     certificate.as_text := nassl.as_text nassl_x509_certificate;
     certificate.as_dict := cert_dict;
     certificate.sha1_fingerprint := nassl.get_SHA1_fingerprint nassl_x509_certificate;
     certificate.hpkp_pin := nassl.get_hpkp_pin nassl_x509_certificate |}.

(** [X509Certificate.from_pem] parses or raises; it is nassl's. *)
Variable X509Certificate_from_pem : string -> Result nassl.X509Certificate.

Definition from_pem (pem_cert : string) : Result certificate.Certificate :=
  parsed <- X509Certificate_from_pem pem_cert ;;
  Ok (from_nassl parsed).

End FromNassl.

(** ** Command line options of the connector *)

(** A value of the parsed command line: [Union[None, bool, str]]. *)
Inductive CliValue : Type :=
| CliNone
| CliBool (b : bool)
| CliStr (s : string).

(** Truth value and [str()] of such a value. *)
Definition cli_truthy (v : CliValue) : bool :=
  match v with
  | CliNone => false
  | CliBool b => b
  | CliStr s => negb (String.eqb s "")
  end.

Definition str_of_cli_value (v : CliValue) : string :=
  match v with
  | CliNone => "None"
  | CliBool true => "True"
  | CliBool false => "False"
  | CliStr s => s
  end.

Record OptParseCliOption : Type := {
  cli_option : string;
  cli_help : string;
  cli_action : string;
}.

(** What leaves [find_cli_options_in_command_line] or one of its callees:
    the exceptions the method raises or catches. *)
Inductive CliException : Type :=
| TypeError (msg : string)
| ValueError (msg : string)
| CliKeyError (key : string).

Inductive CliResult (A : Type) : Type :=
| CliReturn (value : A)
| CliRaise (exn : CliException).

Arguments CliReturn {A} value.
Arguments CliRaise {A} exn.

Section CliOptions.

(** [pathlib.Path(text)]: the path object built from a string; how the
    library normalises the text is its own. *)
Variable PosixPath : Type.
Variable Path : string -> PosixPath.

(** The constructor of [CertificateInfoExtraArguments] (implementation.py,
    not among the sources), called with [custom_ca_file]: it returns the
    arguments or raises, as it does for a path that is no file. *)
Variable ExtraArguments : Type.
Variable CertificateInfoExtraArguments : PosixPath -> CliResult ExtraArguments.

(** The two methods of the base class ([super()]), from plugin_base. *)
Variable super_get_cli_options : list OptParseCliOption.
Variable super_find_cli_options_in_command_line :
  certificate.Dict CliValue -> CliResult (bool * option ExtraArguments).

Definition get_cli_options : list OptParseCliOption :=
  (super_get_cli_options ++
   [ {| cli_option := "certinfo_ca_file";
        cli_help := "Path to a file containing root certificates in PEM format that will be used to verify the validity of the server's certificate.";
        cli_action := "store" |} ])%list.

(** The [try] block holds the subscript, the [isinstance] check and the
    call of the constructor; [except KeyError: pass] catches a [KeyError]
    of any of them and leaves [extra_arguments] at [None]. *)
Definition find_cli_options_in_command_line (parsed_command_line : certificate.Dict CliValue)
  : CliResult (bool * option ExtraArguments) :=
  match super_find_cli_options_in_command_line parsed_command_line with
  | CliRaise e => CliRaise e
  | CliReturn (is_scan_cmd_enabled, _) =>
      match certificate.dict_getitem parsed_command_line "certinfo_ca_file" with
      | Ok certinfo_ca_file =>
          if cli_truthy certinfo_ca_file then
            match certinfo_ca_file with
            | CliStr text =>
                match CertificateInfoExtraArguments (Path text) with
                | CliReturn extra_arguments =>
                    CliReturn (is_scan_cmd_enabled, Some extra_arguments)
                | CliRaise (CliKeyError _) => CliReturn (is_scan_cmd_enabled, None)
                | CliRaise e => CliRaise e
                end
            | other =>
                CliRaise (TypeError ("Expected a str for certinfo_ca_file but received "
                                       ++ str_of_cli_value other))
            end
          else CliReturn (is_scan_cmd_enabled, None)
      | Raise _ => CliReturn (is_scan_cmd_enabled, None)
      end
  end.

End CliOptions.

(** ** More sample data *)

Module Example.

Definition parsed_x509 : nassl.X509Certificate :=
  {| nassl.as_dict :=
       [ ("subject", [("commonName", "example.com")]);
         ("issuer", [("commonName", "Example CA")]);
         ("subjectPublicKeyInfo",
          [("publicKeyAlgorithm", "rsaEncryption"); ("publicKeySize", "2048 bit")]) ];
     nassl.as_pem := Sample.pem_a;
     nassl.as_text := "Certificate: ...";
     nassl.get_SHA1_fingerprint := "0aff10";
     nassl.get_hpkp_pin := "pin" |}.

Definition with_organizational_unit : certificate.Certificate :=
  {| certificate.as_pem := Sample.pem_a;
     certificate.as_text := "text";
     certificate.as_dict :=
       [ ("subject", [("organizationName", "Example Org");
                      ("organizationalUnitName", "Example Unit")]) ];
     certificate.sha1_fingerprint := "0aff10";
     certificate.hpkp_pin := "pin" |}.

Definition two_common_names : x509.Name :=
  {| x509.attributes := [ {| x509.oid := "2.5.4.10"; x509.value := "Example Org" |};
                          {| x509.oid := x509.COMMON_NAME; x509.value := "first.example.com" |};
                          {| x509.oid := x509.COMMON_NAME; x509.value := "second.example.com" |} ];
     x509.rfc4514_string := "CN=second.example.com,CN=first.example.com,O=Example Org" |}.

Definition two_responses : OcspResponseDict :=
  {| responseStatus := "successful";
     responderID := "C = US, O = Example, CN = OCSP";
     responses := [ {| certStatus := "good";
                       certID := {| serialNumber := "1234" |};
                       thisUpdate := "Mar  7 00:00:00 2019 GMT";
                       nextUpdate := "Mar 14 00:00:00 2019 GMT" |};
                    {| certStatus := "revoked";
                       certID := {| serialNumber := "5678" |};
                       thisUpdate := "Mar  8 00:00:00 2019 GMT";
                       nextUpdate := "Mar 15 00:00:00 2019 GMT" |} ] |}.

(** A scan that one store trusts, with the given anchor and SHA-1 flags and
    OCSP attributes. *)
Definition trusted_scan (verified : option (list x509.Certificate))
           (anchor sha1 : option bool) (ocsp : option OcspResponseDict)
           (status : option OcspResponseStatusEnum) (trusted : option bool)
  : CertificateInfoScanResult :=
  {| hostname_used_for_server_name_indication := "example.com";
     received_certificate_chain := [Sample.leaf; Sample.intermediate];
     path_validation_results := [Sample.trusted Sample.mozilla; Sample.untrusted Sample.windows];
     verified_certificate_chain := verified;
     leaf_certificate_subject_matches_hostname := true;
     leaf_certificate_is_ev := false;
     leaf_certificate_has_must_staple_extension := true;
     leaf_certificate_signed_certificate_timestamps_count := Some 3;
     received_chain_has_valid_order := true;
     received_chain_contains_anchor_certificate := anchor;
     verified_chain_has_sha1_signature := sha1;
     verified_chain_has_legacy_symantec_anchor := PyBool false;
     ocsp_response := ocsp;
     ocsp_response_status := status;
     ocsp_response_is_trusted := trusted |}.

(** An environment for the command line: paths are their text, one file
    exists, the constructor of the extra arguments refuses a path that is no
    file, and the base class finds the scan command enabled. *)
Record ExtraArguments : Type := {
  custom_ca_file : string;
}.

Definition is_file (path : string) : bool := String.eqb path "/etc/ssl/roots.pem".

Definition new_extra_arguments (path : string) : CliResult ExtraArguments :=
  if is_file path then CliReturn {| custom_ca_file := path |}
  else CliRaise (ValueError ("Could not open supplied CA file at " ++ path)).

Definition base_options (parsed : certificate.Dict CliValue)
  : CliResult (bool * option ExtraArguments) :=
  CliReturn (true, None).

End Example.

(** * Properties *)

(** ** Results and lookups *)

Lemma bind_Ok {A B : Type} (m : Result A) (k : A -> Result B) (b : B) :
  bind m k = Ok b <-> exists a, m = Ok a /\ k a = Ok b.
Proof.
  split.
  - destruct m as [a | e]; simpl; intros H; [exists a; auto | discriminate].
  - intros [a [-> H]]. exact H.
Qed.

Lemma getitem_0_cons {A : Type} (a : A) (rest : list A) : getitem (a :: rest) 0 = Ok a.
Proof. reflexivity. Qed.

Lemma getitem_0_nil {A : Type} : getitem (@nil A) 0 = Raise IndexError.
Proof. reflexivity. Qed.

Lemma dict_getitem_raises {V : Type} (d : certificate.Dict V) (key : string) (e : PyException) :
  certificate.dict_getitem d key = Raise e -> e = KeyError key.
Proof.
  induction d as [| [k v] rest IH]; simpl.
  - intros H. injection H as <-. reflexivity.
  - destruct (String.eqb k key); [discriminate | exact IH].
Qed.

Lemma OcspResponseStatusEnum_eqb_eq (a b : OcspResponseStatusEnum) :
  OcspResponseStatusEnum_eqb a b = true <-> a = b.
Proof. destruct a, b; simpl; split; intros H; try reflexivity; discriminate H. Qed.

Lemma is_not_SUCCESSFUL_Some (s : OcspResponseStatusEnum) :
  is_not_SUCCESSFUL (Some s) = true <-> s <> SUCCESSFUL.
Proof. destruct s; simpl; split; intros H; try reflexivity; try discriminate; congruence. Qed.

Section OutputShape.

Context {connector : ScanCommandCliConnector} {builtins : PyBuiltins}.

(** The certificate text of a scan whose received chain starts with
    [certificate]: the basic fields, then the subject-alternative-name
    line. *)
Lemma basic_text_of_chain (result : CertificateInfoScanResult)
      (certificate : x509.Certificate) (rest : list x509.Certificate) :
  received_certificate_chain result = certificate :: rest ->
  _get_basic_certificate_text result =
  Ok (basic_fields certificate ++
      [_format_field "DNS Subject Alternative Names:"
         (str_of_list (extract_dns_subject_alternative_names certificate))])%list.
Proof.
  intros Hchain. unfold _get_basic_certificate_text, basic_fields.
  rewrite Hchain, getitem_0_cons. reflexivity.
Qed.

Lemma basic_text_of_empty_chain (result : CertificateInfoScanResult) :
  received_certificate_chain result = [] ->
  _get_basic_certificate_text result = Raise IndexError.
Proof.
  intros Hchain. unfold _get_basic_certificate_text.
  rewrite Hchain, getitem_0_nil. reflexivity.
Qed.

(** The output is the concatenation of its sections, in source order. *)
Lemma output_sections (result : CertificateInfoScanResult)
      (basic : list string) (symantec : string) (ocsp : list string) :
  _get_basic_certificate_text result = Ok basic ->
  symantec_str result = Ok symantec ->
  ocsp_resp_txt result = Ok ocsp ->
  result_to_console_output result =
  Ok ((((([_format_title "Certificate Information"] ++ basic)
          ++ trust_lines result)
         ++ [_format_field "Symantec 2018 Deprecation:" symantec])
        ++ chain_and_extension_lines result)
       ++ ocsp)%list.
Proof.
  intros Hbasic Hsym Hocsp. unfold result_to_console_output.
  rewrite Hbasic. cbn [bind]. rewrite Hsym. cbn [bind]. rewrite Hocsp. reflexivity.
Qed.

Lemma output_inv (result : CertificateInfoScanResult) (lines : list string) :
  result_to_console_output result = Ok lines ->
  exists basic symantec ocsp,
    _get_basic_certificate_text result = Ok basic /\
    symantec_str result = Ok symantec /\
    ocsp_resp_txt result = Ok ocsp /\
    lines =
    ((((([_format_title "Certificate Information"] ++ basic)
          ++ trust_lines result)
         ++ [_format_field "Symantec 2018 Deprecation:" symantec])
        ++ chain_and_extension_lines result)
       ++ ocsp)%list.
Proof.
  unfold result_to_console_output. intros H.
  apply bind_Ok in H. destruct H as [basic [Hbasic H]].
  apply bind_Ok in H. destruct H as [symantec [Hsym H]].
  apply bind_Ok in H. destruct H as [ocsp [Hocsp H]].
  injection H as <-. exists basic, symantec, ocsp. repeat split; assumption.
Qed.

Lemma symantec_str_in_domain (result : CertificateInfoScanResult) :
  in_declared_domain (verified_chain_has_legacy_symantec_anchor result) = true <->
  exists text, symantec_str result = Ok text.
Proof.
  unfold symantec_str.
  destruct (verified_chain_has_legacy_symantec_anchor result) as [| [|] | n | s]; simpl;
    split; intros H; try reflexivity; try discriminate H;
    try (eexists; reflexivity); destruct H as [text H]; discriminate H.
Qed.

Lemma ocsp_renders_iff (result : CertificateInfoScanResult) :
  ocsp_renders result = true <-> exists lines, ocsp_resp_txt result = Ok lines.
Proof.
  unfold ocsp_renders, ocsp_resp_txt.
  destruct (ocsp_response result) as [response |].
  2: { split; [intros _; eexists; reflexivity | reflexivity]. }
  destruct (ocsp_response_status result) as [status |]; simpl.
  2: { split; [discriminate | intros [lines H]; discriminate H]. }
  destruct (OcspResponseStatusEnum_eqb status SUCCESSFUL); simpl.
  2: { split; [intros _; eexists; reflexivity | reflexivity]. }
  destruct (contains "successful" (responseStatus response)); simpl.
  2: { split; [intros _; eexists; reflexivity | reflexivity]. }
  destruct (responses response) as [| first rest]; simpl.
  - split; [discriminate | intros [lines H]; discriminate H].
  - split; [intros _; eexists; reflexivity | reflexivity].
Qed.

(** [result_to_console_output] returns exactly on the scans that
    [renders] accepts; on the others it raises. *)
Lemma renders_iff (result : CertificateInfoScanResult) :
  renders result = true <-> exists lines, result_to_console_output result = Ok lines.
Proof.
  unfold renders. rewrite !andb_true_iff. split.
  - intros [[Hchain Hdom] Hocsp].
    destruct (received_certificate_chain result) as [| c rest] eqn:Hc; [discriminate Hchain |].
    apply symantec_str_in_domain in Hdom. destruct Hdom as [text Htext].
    apply ocsp_renders_iff in Hocsp. destruct Hocsp as [ocsp Hocsp'].
    eexists. eapply output_sections; eauto using basic_text_of_chain.
  - intros [lines H]. apply output_inv in H.
    destruct H as [basic [symantec [ocsp [Hbasic [Hsym [Hocsp _]]]]]].
    repeat split.
    + destruct (received_certificate_chain result) eqn:Hc; [| reflexivity].
      rewrite (basic_text_of_empty_chain _ Hc) in Hbasic. discriminate Hbasic.
    + apply symantec_str_in_domain. eauto.
    + apply ocsp_renders_iff. eauto.
Qed.

(** Every line of the chain and extension section is a line of the output. *)
Lemma chain_and_extension_line_in_output (result : CertificateInfoScanResult)
      (lines : list string) (line : string) :
  result_to_console_output result = Ok lines ->
  In line (chain_and_extension_lines result) ->
  In line lines.
Proof.
  intros H Hin. apply output_inv in H.
  destruct H as [basic [symantec [ocsp [_ [_ [_ ->]]]]]].
  apply in_or_app. left. apply in_or_app. right. exact Hin.
Qed.


End OutputShape.

(** ** Certificate Transparency (SCT count) *)

(** C1, as the spec states it, fails on the code: an absent count ([None])
    is rendered "OK - Extension present", a count of 0 is rendered
    "NOT SUPPORTED - Extension not found"; the two lines and the two outputs
    differ. *)
Lemma sct_absent_differs_from_zero :
  sct_txt None = "OK - Extension present" /\
  sct_txt (Some 0) = "NOT SUPPORTED - Extension not found" /\
  @_format_field console_connector "Certificate Transparency:" (sct_txt None) <>
  @_format_field console_connector "Certificate Transparency:" (sct_txt (Some 0)) /\
  @result_to_console_output console_connector plain_builtins (Sample.plain_scan None) <>
  @result_to_console_output console_connector plain_builtins (Sample.plain_scan (Some 0)).
Proof.
  split; [reflexivity |]. split; [reflexivity |]. split.
  - intros H. vm_compute in H. discriminate H.
  - intros H. vm_compute in H. discriminate H.
Qed.

(** C1 (amended): the SCT classification is a threshold policy on the leaf
    certificate's SCT count in which absent and zero are different classes:
    an absent count is rendered "OK - Extension present", a count of 0
    "NOT SUPPORTED - Extension not found", a count of 1 or 2 the warning
    that names the count and the recommended minimum of 3, and a count of 3
    or more "OK - n SCTs included"; the classification of the scan's count is
    a line of the output of every scan that renders. *)
Theorem sct_classification {connector : ScanCommandCliConnector} {builtins : PyBuiltins}
        (result : CertificateInfoScanResult) (n : Z) :
  renders result = true ->
  (exists lines,
      result_to_console_output result = Ok lines /\
      In (_format_field "Certificate Transparency:"
            (sct_txt (leaf_certificate_signed_certificate_timestamps_count result))) lines) /\
  sct_txt None = "OK - Extension present" /\
  sct_txt (Some 0) = "NOT SUPPORTED - Extension not found" /\
  (1 <= n < 3 ->
   sct_txt (Some n) =
   "WARNING - Only " ++ str_of_int n ++ " SCTs included but Google recommends 3 or more") /\
  (3 <= n -> sct_txt (Some n) = "OK - " ++ str_of_int n ++ " SCTs included").
Proof.
  intros Hrenders. split; [| split; [reflexivity | split; [reflexivity | split]]].
  - apply renders_iff in Hrenders. destruct Hrenders as [lines Hlines].
    exists lines. split; [exact Hlines |].
    apply (chain_and_extension_line_in_output Hlines).
    unfold chain_and_extension_lines. simpl. tauto.
  - intros Hn. unfold sct_txt.
    destruct (Z.eqb_spec n 0) as [-> | _]; [lia |].
    destruct (Z.ltb_spec n 3); [reflexivity | lia].
  - intros Hn. unfold sct_txt.
    destruct (Z.eqb_spec n 0) as [-> | _]; [lia |].
    destruct (Z.ltb_spec n 3); [lia | reflexivity].
Qed.

Lemma sct_classification_witness :
  renders (Sample.plain_scan (Some 2)) = true /\
  sct_txt (Some 2) = "WARNING - Only 2 SCTs included but Google recommends 3 or more" /\
  sct_txt (Some 3) = "OK - 3 SCTs included" /\
  exists lines,
    @result_to_console_output console_connector plain_builtins (Sample.plain_scan (Some 2)) =
    Ok lines /\
    In "       Certificate Transparency:          WARNING - Only 2 SCTs included but Google recommends 3 or more"
       lines.
Proof.
  split; [reflexivity |].
  split; [exact (proj1 (proj2 (proj2 (proj2
            (@sct_classification console_connector plain_builtins
               (Sample.plain_scan (Some 2)) 2 eq_refl)))) ltac:(lia)) |].
  split; [reflexivity |].
  exact (proj1 (@sct_classification console_connector plain_builtins
                  (Sample.plain_scan (Some 2)) 2 eq_refl)).
Defined.

(** ** OCSP: successful status, empty list of responses *)

(** C2, as the spec states it, fails on the code: with status SUCCESSFUL,
    a status text that contains "successful" and no per-certificate entry,
    the code subscripts the empty list and raises IndexError. *)
Lemma ocsp_empty_responses_raise :
  let result :=
      Sample.untrusted_scan Sample.chain PyNone None
                            (Some Sample.empty_response) (Some SUCCESSFUL) in
  ocsp_response_status result = Some SUCCESSFUL /\
  option_map responses (ocsp_response result) = Some [] /\
  @ocsp_resp_txt console_connector result = Raise IndexError /\
  @result_to_console_output console_connector plain_builtins result = Raise IndexError.
Proof. repeat split; reflexivity. Qed.

(** C2 (amended): for a scan whose OCSP response has status SUCCESSFUL and
    an empty list of per-certificate responses, the substring check alone
    decides: when the status text does not contain "successful" the three
    response lines are produced and the list is not subscripted; when it
    does, element zero of the empty list is accessed, the OCSP lines fail
    with IndexError and no output is produced. *)
Theorem ocsp_successful_empty_list {connector : ScanCommandCliConnector}
        {builtins : PyBuiltins}
        (result : CertificateInfoScanResult) (response : OcspResponseDict) :
  ocsp_response result = Some response ->
  ocsp_response_status result = Some SUCCESSFUL ->
  responses response = [] ->
  (contains "successful" (responseStatus response) = false ->
   ocsp_resp_txt result =
   Ok [ _format_field "OCSP Response Status:" (responseStatus response);
        _format_field "Validation w/ Mozilla Store:"
          (if truthy (ocsp_response_is_trusted result)
           then "OK - Response is trusted" else "FAILED - Response is NOT trusted");
        _format_field "Responder Id:" (responderID response) ]) /\
  (contains "successful" (responseStatus response) = true ->
   ocsp_resp_txt result = Raise IndexError /\
   forall lines, result_to_console_output result <> Ok lines).
Proof.
  intros Hresp Hstatus Hempty. unfold ocsp_resp_txt.
  rewrite Hresp, Hstatus, Hempty. simpl. split; intros Hsub; rewrite Hsub.
  - reflexivity.
  - split; [reflexivity |].
    intros lines Hlines.
    assert (Hr : renders result = true) by (apply renders_iff; eauto).
    unfold renders, ocsp_renders in Hr.
    rewrite Hresp, Hstatus, Hsub, Hempty in Hr. simpl in Hr.
    rewrite andb_false_r in Hr. discriminate Hr.
Qed.

Lemma ocsp_successful_empty_list_witness :
  let result :=
      Sample.untrusted_scan Sample.chain PyNone None
                            (Some Sample.empty_response) (Some SUCCESSFUL) in
  @ocsp_resp_txt console_connector result = Raise IndexError /\
  forall lines, @result_to_console_output console_connector plain_builtins result <> Ok lines.
Proof.
  exact (proj2 (@ocsp_successful_empty_list console_connector plain_builtins
                  (Sample.untrusted_scan Sample.chain PyNone None
                                         (Some Sample.empty_response) (Some SUCCESSFUL))
                  Sample.empty_response eq_refl eq_refl eq_refl) eq_refl).
Defined.

(** ** Checks that need a verified chain *)

Lemma find_none_of_all_failed (outcomes : list PathValidationResult) :
  Forall (fun outcome => was_validation_successful outcome = false) outcomes ->
  find was_validation_successful outcomes = None.
Proof.
  induction 1 as [| outcome rest Hfailed _ IH]; simpl.
  - reflexivity.
  - rewrite Hfailed. exact IH.
Qed.

(** Whatever the flags hold, a scan without a verified chain renders the
    anchor and SHA-1 checks as the no-verified-chain error. *)
Lemma no_chain_texts (result : CertificateInfoScanResult) :
  truthy_list (verified_certificate_chain result) = false ->
  chain_with_anchor_txt result = NO_VERIFIED_CHAIN_ERROR_TXT /\
  sha1_text result = NO_VERIFIED_CHAIN_ERROR_TXT /\
  verified_chain_txt result = NO_VERIFIED_CHAIN_ERROR_TXT.
Proof.
  unfold chain_with_anchor_txt, sha1_text, verified_chain_txt.
  intros H. rewrite H.
  destruct (verified_certificate_chain result) as [[| c chain] |];
    try discriminate H; repeat split; reflexivity.
Qed.

(** C3: when no path validation outcome is successful there is no verified
    chain, and the legacy-CA-distrust (Symantec) check, the SHA-1 check and
    the anchor-inclusion check all resolve to the Unknown state: each is
    rendered as the no-verified-chain error text, which is none of the pass
    or fail texts, and these are the lines of the output. *)
Theorem no_successful_outcome_is_unknown
        {connector : ScanCommandCliConnector} {builtins : PyBuiltins}
        (anchor_is_legacy_distrusted chain_has_sha1_signature : list x509.Certificate -> bool)
        (received_contains_anchor : list x509.Certificate -> list x509.Certificate -> bool)
        (result : CertificateInfoScanResult) :
  Forall (fun outcome => was_validation_successful outcome = false)
         (path_validation_results result) ->
  let verdict :=
      with_derived_checks anchor_is_legacy_distrusted chain_has_sha1_signature
                          received_contains_anchor result in
  verified_certificate_chain verdict = None /\
  symantec_str verdict = Ok NO_VERIFIED_CHAIN_ERROR_TXT /\
  sha1_text verdict = NO_VERIFIED_CHAIN_ERROR_TXT /\
  chain_with_anchor_txt verdict = NO_VERIFIED_CHAIN_ERROR_TXT /\
  ~ In NO_VERIFIED_CHAIN_ERROR_TXT
       [ "WARNING: Certificate distrusted by Google and Mozilla since 2018";
         "OK - Not a Symantec-issued certificate";
         "OK - No SHA1-signed certificate in the verified certificate chain";
         "INSECURE - SHA1-signed certificate in the verified certificate chain";
         "OK - Anchor certificate not sent";
         "WARNING - Received certificate chain contains the anchor certificate" ] /\
  forall lines,
    result_to_console_output verdict = Ok lines ->
    In (_format_field "Symantec 2018 Deprecation:" NO_VERIFIED_CHAIN_ERROR_TXT) lines /\
    In (_format_field "Verified Chain contains SHA1:" NO_VERIFIED_CHAIN_ERROR_TXT) lines /\
    In (_format_field "Received Chain Contains Anchor:" NO_VERIFIED_CHAIN_ERROR_TXT) lines.
Proof.
  intros Hfailed verdict.
  assert (Hchain : verified_certificate_chain verdict = None).
  { unfold verdict, with_derived_checks, first_verified_chain. simpl.
    rewrite (find_none_of_all_failed Hfailed). reflexivity. }
  assert (Hsym : symantec_str verdict = Ok NO_VERIFIED_CHAIN_ERROR_TXT).
  { unfold symantec_str, verdict, with_derived_checks, first_verified_chain. simpl.
    rewrite (find_none_of_all_failed Hfailed). reflexivity. }
  assert (Htruthy : truthy_list (verified_certificate_chain verdict) = false)
    by (rewrite Hchain; reflexivity).
  destruct (no_chain_texts verdict Htruthy) as [Hanchor [Hsha1 _]].
  split; [exact Hchain |]. split; [exact Hsym |].
  split; [exact Hsha1 |]. split; [exact Hanchor |]. split.
  - simpl. intros H.
    repeat (destruct H as [H | H]; [discriminate H |]). exact H.
  - intros lines Hlines. split; [| split].
    + pose proof Hlines as Hinv. apply output_inv in Hinv.
      destruct Hinv as [basic [symantec [ocsp [_ [Hs [_ ->]]]]]].
      rewrite Hsym in Hs. injection Hs as <-.
      apply in_or_app. left. apply in_or_app. left. apply in_or_app. right.
      simpl. tauto.
    + apply (chain_and_extension_line_in_output Hlines).
      unfold chain_and_extension_lines. rewrite Hsha1. simpl. tauto.
    + apply (chain_and_extension_line_in_output Hlines).
      unfold chain_and_extension_lines. rewrite Hanchor. simpl. tauto.
Qed.

Lemma no_successful_outcome_is_unknown_witness :
  let verdict :=
      with_derived_checks (fun _ => true) (fun _ => true) (fun _ _ => true)
                          (Sample.untrusted_scan Sample.chain (PyBool true) (Some 3) None None) in
  Forall (fun outcome => was_validation_successful outcome = false)
         (path_validation_results verdict) /\
  renders verdict = true /\
  @symantec_str verdict = Ok NO_VERIFIED_CHAIN_ERROR_TXT /\
  sha1_text verdict = NO_VERIFIED_CHAIN_ERROR_TXT /\
  chain_with_anchor_txt verdict = NO_VERIFIED_CHAIN_ERROR_TXT.
Proof.
  assert (Hfailed : Forall (fun outcome => was_validation_successful outcome = false)
                           (path_validation_results
                              (Sample.untrusted_scan Sample.chain (PyBool true) (Some 3)
                                                     None None)))
    by (repeat constructor).
  split; [exact Hfailed |]. split; [reflexivity |].
  pose proof (@no_successful_outcome_is_unknown console_connector plain_builtins
                (fun _ => true) (fun _ => true) (fun _ _ => true)
                (Sample.untrusted_scan Sample.chain (PyBool true) (Some 3) None None)
                Hfailed) as H.
  cbv zeta in H. destruct H as [_ [Hsym [Hsha1 [Hanchor _]]]].
  split; [exact Hsym |]. split; [exact Hsha1 | exact Hanchor].
Defined.

(** ** Per-store verdicts and Extended Validation *)



(** ** Received chain order *)

(** C5: the chain order line is computed from the order flag alone and is
    rendered on every scan that renders, whatever the trust outcome is.  It
    reads "OK - Order is valid" exactly when the flag is true and "FAILED -
    Certificate chain out of order!" exactly when it is false; two scans
    with the same flag have the same text.  Replacing the path validation
    results, the verified chain and the fields evaluated on it changes
    neither the text nor whether the scan renders, and the line is in the
    output of the scan so changed; with a true flag the output reports valid
    order also when every outcome is a failure and there is no verified
    chain. *)
Theorem chain_order_independent_of_trust
        {connector : ScanCommandCliConnector} {builtins : PyBuiltins}
        (result : CertificateInfoScanResult) :
  (chain_order_txt result = "OK - Order is valid" <->
   received_chain_has_valid_order result = true) /\
  (chain_order_txt result = "FAILED - Certificate chain out of order!" <->
   received_chain_has_valid_order result = false) /\
  (forall other,
      received_chain_has_valid_order other = received_chain_has_valid_order result ->
      chain_order_txt other = chain_order_txt result) /\
  (forall lines,
      result_to_console_output result = Ok lines ->
      In (_format_field "Received Chain Order:" (chain_order_txt result)) lines) /\
  (forall outcomes verified anchor sha1 symantec,
      let other := with_trust_outcome result outcomes verified anchor sha1 symantec in
      chain_order_txt other = chain_order_txt result /\
      (renders result = true ->
       exists lines,
         result_to_console_output other = Ok lines /\
         In (_format_field "Received Chain Order:" (chain_order_txt result)) lines)) /\
  (received_chain_has_valid_order result = true ->
   renders result = true ->
   Forall (fun outcome => was_validation_successful outcome = false)
          (path_validation_results result) ->
   verified_certificate_chain result = None ->
   exists lines,
     result_to_console_output result = Ok lines /\
     In (_format_field "Received Chain Order:" "OK - Order is valid") lines).
Proof.
  assert (Hin : forall scan lines,
             result_to_console_output scan = Ok lines ->
             In (_format_field "Received Chain Order:" (chain_order_txt scan)) lines).
  { intros scan lines Hlines. apply (chain_and_extension_line_in_output Hlines).
    unfold chain_and_extension_lines. simpl. tauto. }
  split; [| split; [| split; [| split; [| split]]]].
  - unfold chain_order_txt.
    destruct (received_chain_has_valid_order result); split; intros H;
      try reflexivity; discriminate H.
  - unfold chain_order_txt.
    destruct (received_chain_has_valid_order result); split; intros H;
      try reflexivity; discriminate H.
  - intros other Hflag. unfold chain_order_txt. rewrite Hflag. reflexivity.
  - exact (Hin result).
  - intros outcomes verified anchor sha1 symantec other.
    assert (Htxt : chain_order_txt other = chain_order_txt result) by reflexivity.
    split; [exact Htxt |].
    intros Hrenders.
    assert (Hother : renders other = true).
    { unfold renders in *. apply andb_true_iff in Hrenders.
      destruct Hrenders as [Hrest Hocsp]. apply andb_true_iff in Hrest.
      destruct Hrest as [Hchain _].
      apply andb_true_iff. split; [apply andb_true_iff; split |].
      - exact Hchain.
      - unfold other. simpl. destruct symantec; reflexivity.
      - exact Hocsp. }
    apply renders_iff in Hother. destruct Hother as [lines Hlines].
    exists lines. split; [exact Hlines |]. rewrite <- Htxt. exact (Hin other lines Hlines).
  - intros Hflag Hrenders _ _.
    apply renders_iff in Hrenders. destruct Hrenders as [lines Hlines].
    exists lines. split; [exact Hlines |].
    replace "OK - Order is valid" with (chain_order_txt result)
      by (unfold chain_order_txt; rewrite Hflag; reflexivity).
    exact (Hin result lines Hlines).
Qed.

Lemma chain_order_independent_of_trust_witness :
  let result := Sample.plain_scan None in
  Forall (fun outcome => was_validation_successful outcome = false)
         (path_validation_results result) /\
  verified_certificate_chain result = None /\
  (exists lines,
      @result_to_console_output console_connector plain_builtins result = Ok lines /\
      In "       Received Chain Order:              OK - Order is valid" lines) /\
  truthy_list (verified_certificate_chain Sample.out_of_order_scan) = true /\
  chain_order_txt Sample.out_of_order_scan = "FAILED - Certificate chain out of order!" /\
  exists lines,
    @result_to_console_output console_connector plain_builtins Sample.out_of_order_scan =
    Ok lines /\
    In "       Received Chain Order:              FAILED - Certificate chain out of order!"
       lines.
Proof.
  assert (Hfailed : Forall (fun outcome => was_validation_successful outcome = false)
                           (path_validation_results (Sample.plain_scan None)))
    by (repeat constructor).
  pose proof (@chain_order_independent_of_trust console_connector plain_builtins
                (Sample.plain_scan None)) as [_ [_ [_ [_ [_ Hvalid]]]]].
  pose proof (@chain_order_independent_of_trust console_connector plain_builtins
                Sample.out_of_order_scan) as [_ [Hfalse [_ [Hline _]]]].
  split; [exact Hfailed |]. split; [reflexivity |].
  split; [exact (Hvalid eq_refl eq_refl Hfailed eq_refl) |].
  split; [reflexivity |].
  split; [apply Hfalse; reflexivity |].
  eexists. split; [reflexivity |].
  exact (Hline _ eq_refl).
Defined.

(** ** OCSP: status other than successful *)

(** C6: for a scan with an OCSP response whose status is not SUCCESSFUL the
    OCSP lines are the single error line that carries the name of the
    status; nothing of the response dictionary (certificate status, serial
    number, this-update, next-update) is in them, and they end the output. *)
Theorem ocsp_error_status_only
        {connector : ScanCommandCliConnector} {builtins : PyBuiltins}
        (result : CertificateInfoScanResult) (response : OcspResponseDict)
        (status : OcspResponseStatusEnum) :
  ocsp_response result = Some response ->
  ocsp_response_status result = Some status ->
  status <> SUCCESSFUL ->
  let error_line :=
      _format_field "" ("ERROR - OCSP response status is not successful: "
                          ++ OcspResponseStatusEnum_name status) in
  ocsp_resp_txt result = Ok [error_line] /\
  forall basic symantec,
    _get_basic_certificate_text result = Ok basic ->
    symantec_str result = Ok symantec ->
    result_to_console_output result =
    Ok ((((([_format_title "Certificate Information"] ++ basic)
            ++ trust_lines result)
           ++ [_format_field "Symantec 2018 Deprecation:" symantec])
          ++ chain_and_extension_lines result)
         ++ [error_line])%list.
Proof.
  intros Hresp Hstatus Hne error_line.
  assert (Hocsp : ocsp_resp_txt result = Ok [error_line]).
  { unfold ocsp_resp_txt. rewrite Hresp, Hstatus.
    apply is_not_SUCCESSFUL_Some in Hne. rewrite Hne. reflexivity. }
  split; [exact Hocsp |].
  intros basic symantec Hbasic Hsym. apply output_sections; assumption.
Qed.

Lemma ocsp_error_status_only_witness :
  let result :=
      Sample.untrusted_scan Sample.chain PyNone None
                            (Some Sample.good_response) (Some TRY_LATER) in
  @ocsp_resp_txt console_connector result =
  Ok ["                                          ERROR - OCSP response status is not successful: TRY_LATER"].
Proof.
  refine (proj1 (@ocsp_error_status_only console_connector plain_builtins
                   (Sample.untrusted_scan Sample.chain PyNone None
                                          (Some Sample.good_response) (Some TRY_LATER))
                   Sample.good_response TRY_LATER eq_refl eq_refl _)).
  discriminate.
Defined.

(** ** Subject alternative names in the certificate text *)



(** ** Equality and hashing of the picklable Certificate *)

(** C8: two Certificate instances compare equal if and only if their PEM
    encodings are identical; equal instances have equal hashes; [__ne__] is
    the negation of [__eq__]; and replacing the text form, the dict form,
    the fingerprint and the pin of an instance changes neither its equality
    with another instance nor its hash. *)
Theorem certificate_equality_by_pem {builtins : PyBuiltins}
        (a b : certificate.Certificate) :
  (certificate.__eq__ a (certificate.Instance b) = true <->
   certificate.as_pem a = certificate.as_pem b) /\
  (certificate.__eq__ a (certificate.Instance b) = true ->
   certificate.__hash__ a = certificate.__hash__ b) /\
  certificate.__ne__ a (certificate.Instance b) =
  negb (certificate.__eq__ a (certificate.Instance b)) /\
  forall text dict fingerprint pin,
    let a' := {| certificate.as_pem := certificate.as_pem a;
                 certificate.as_text := text;
                 certificate.as_dict := dict;
                 certificate.sha1_fingerprint := fingerprint;
                 certificate.hpkp_pin := pin |} in
    certificate.__eq__ a' (certificate.Instance b) =
    certificate.__eq__ a (certificate.Instance b) /\
    certificate.__eq__ b (certificate.Instance a') =
    certificate.__eq__ b (certificate.Instance a) /\
    certificate.__hash__ a' = certificate.__hash__ a.
Proof.
  unfold certificate.__eq__, certificate.__ne__, certificate.__hash__.
  split; [apply String.eqb_eq |]. split.
  - intros H. apply String.eqb_eq in H. rewrite H. reflexivity.
  - split; [reflexivity |]. intros text dict fingerprint pin. simpl. auto.
Qed.

Lemma certificate_equality_by_pem_witness :
  let a := Sample.pickled "first text" [("commonName", "Example CA")] in
  let b := Sample.pickled "second text" [] in
  certificate.as_text a <> certificate.as_text b /\
  certificate.__eq__ a (certificate.Instance b) = true /\
  @certificate.__hash__ plain_builtins a = @certificate.__hash__ plain_builtins b.
Proof.
  cbv zeta. split; [discriminate |].
  pose proof (@certificate_equality_by_pem plain_builtins
                (Sample.pickled "first text" [("commonName", "Example CA")])
                (Sample.pickled "second text" [])) as [Hiff [Hhash _]].
  assert (Heq : certificate.__eq__
                  (Sample.pickled "first text" [("commonName", "Example CA")])
                  (certificate.Instance (Sample.pickled "second text" [])) = true)
    by (apply Hiff; reflexivity).
  split; [exact Heq | exact (Hhash Heq)].
Defined.

(** ** The domain of the Symantec field *)

(** C9: when the legacy-CA-distrust field holds a value outside
    {None, True, False}, the classification raises RuntimeError and so does
    the whole rendering of a scan with a certificate, nothing is coerced;
    inside the domain the three values give three different texts. *)
Theorem symantec_field_domain
        {connector : ScanCommandCliConnector} {builtins : PyBuiltins}
        (result : CertificateInfoScanResult) :
  (in_declared_domain (verified_chain_has_legacy_symantec_anchor result) = false ->
   symantec_str result = Raise (RuntimeError "Should never happen") /\
   (received_certificate_chain result <> [] ->
    result_to_console_output result = Raise (RuntimeError "Should never happen"))) /\
  (verified_chain_has_legacy_symantec_anchor result = PyNone ->
   symantec_str result = Ok NO_VERIFIED_CHAIN_ERROR_TXT) /\
  (verified_chain_has_legacy_symantec_anchor result = PyBool true ->
   symantec_str result =
   Ok "WARNING: Certificate distrusted by Google and Mozilla since 2018") /\
  (verified_chain_has_legacy_symantec_anchor result = PyBool false ->
   symantec_str result = Ok "OK - Not a Symantec-issued certificate") /\
  NO_VERIFIED_CHAIN_ERROR_TXT <>
  "WARNING: Certificate distrusted by Google and Mozilla since 2018" /\
  NO_VERIFIED_CHAIN_ERROR_TXT <> "OK - Not a Symantec-issued certificate" /\
  "WARNING: Certificate distrusted by Google and Mozilla since 2018" <>
  "OK - Not a Symantec-issued certificate".
Proof.
  split; [| repeat split; try discriminate;
            unfold symantec_str; intros ->; reflexivity].
  intros Hout.
  assert (Hsym : symantec_str result = Raise (RuntimeError "Should never happen")).
  { unfold symantec_str.
    destruct (verified_chain_has_legacy_symantec_anchor result) as [| [|] | n | s];
      try discriminate Hout; reflexivity. }
  split; [exact Hsym |].
  intros Hchain. unfold result_to_console_output.
  destruct (received_certificate_chain result) as [| leaf rest] eqn:Hc; [congruence |].
  rewrite (basic_text_of_chain _ Hc). cbn [bind]. rewrite Hsym. reflexivity.
Qed.

Lemma symantec_field_domain_witness :
  let result := Sample.untrusted_scan Sample.chain (PyInt 1) None None None in
  symantec_str result = Raise (RuntimeError "Should never happen") /\
  @result_to_console_output console_connector plain_builtins result =
  Raise (RuntimeError "Should never happen").
Proof.
  pose proof (proj1 (@symantec_field_domain console_connector plain_builtins
                       (Sample.untrusted_scan Sample.chain (PyInt 1) None None None))
                    eq_refl) as [Hsym Hout].
  split; [exact Hsym |]. apply Hout. discriminate.
Defined.

(** ** The printable issuer name *)

(** C10: when the subject dictionary has a commonName entry,
    [printable_issuer_name] returns that common name, whatever the issuer
    entry is and even without one; only when the subject dictionary has no
    commonName key is the issuer dictionary used, its items rendered as
    "key: value" and joined by " - ". *)
Theorem printable_issuer_name_reads_subject (self : certificate.Certificate)
        (subject : certificate.Dict string) :
  certificate.dict_getitem (certificate.as_dict self) "subject" = Ok subject ->
  (forall common_name,
      certificate.dict_getitem subject "commonName" = Ok common_name ->
      certificate.printable_issuer_name self = Ok common_name /\
      forall other,
        certificate.dict_getitem (certificate.as_dict other) "subject" = Ok subject ->
        certificate.printable_issuer_name other = Ok common_name) /\
  (forall e issuer,
      certificate.dict_getitem subject "commonName" = Raise e ->
      certificate.dict_getitem (certificate.as_dict self) "issuer" = Ok issuer ->
      certificate.printable_issuer_name self =
      Ok (String.concat " - " (map (fun item => fst item ++ ": " ++ snd item) issuer))).
Proof.
  intros Hsubject. unfold certificate.printable_issuer_name. split.
  - intros common_name Hcn. rewrite Hsubject. cbn [bind]. rewrite Hcn.
    split; [reflexivity |].
    intros other Hother. rewrite Hother. cbn [bind]. rewrite Hcn. reflexivity.
  - intros e issuer Hcn Hissuer. rewrite Hsubject. cbn [bind].
    rewrite Hcn, (dict_getitem_raises _ _ Hcn). cbn [try_except_KeyError].
    rewrite Hissuer. reflexivity.
Qed.

Lemma printable_issuer_name_reads_subject_witness :
  certificate.printable_issuer_name
    (Sample.pickled "text" [("commonName", "Example CA")]) = Ok "example.com" /\
  certificate.printable_issuer_name Sample.without_common_name =
  Ok "countryName: US - commonName: Example CA".
Proof.
  split.
  - exact (proj1 (proj1 (@printable_issuer_name_reads_subject
                           (Sample.pickled "text" [("commonName", "Example CA")])
                           [("organizationName", "Example Org"); ("commonName", "example.com")]
                           eq_refl)
                        "example.com" eq_refl)).
  - exact (proj2 (@printable_issuer_name_reads_subject
                    Sample.without_common_name
                    [("organizationName", "Example Org")]
                    eq_refl)
                 (KeyError "commonName")
                 [("countryName", "US"); ("commonName", "Example CA")]
                 eq_refl eq_refl).
Defined.

(** * Further properties of the code *)

(** ** Strings and dicts *)

Lemma prefix_of_empty (t : string) : prefix t EmptyString = true -> t = EmptyString.
Proof. destruct t; simpl; [reflexivity | discriminate]. Qed.

Lemma before_first_eq (sep s : string) :
  before_first sep s =
  if prefix sep s then EmptyString
  else match s with
       | EmptyString => EmptyString
       | String c rest => String c (before_first sep rest)
       end.
Proof. destruct s; reflexivity. Qed.

Lemma contains_eq (needle hay : string) :
  contains needle hay =
  if prefix needle hay then true
  else match hay with
       | EmptyString => false
       | String _ rest => contains needle rest
       end.
Proof. destruct hay; reflexivity. Qed.

(** What [before_first] returns is an initial part of its argument. *)
Lemma prefix_before_first (sep s t : string) :
  prefix t (before_first sep s) = true -> prefix t s = true.
Proof.
  revert t. induction s as [| c rest IH]; intros t; rewrite before_first_eq.
  - destruct (prefix sep EmptyString); exact (fun H => H).
  - destruct (prefix sep (String c rest)).
    + intros H. apply prefix_of_empty in H. subst t. reflexivity.
    + destruct t as [| a t']; simpl; [reflexivity |].
      destruct (ascii_dec a c); [apply IH | exact (fun H => H)].
Qed.

(** The separator does not occur in what comes before its first occurrence. *)
Lemma before_first_has_no_sep (sep s : string) :
  sep <> EmptyString -> contains sep (before_first sep s) = false.
Proof.
  intros Hsep.
  assert (Hempty : contains sep EmptyString = false)
    by (destruct sep; [congruence | reflexivity]).
  induction s as [| c rest IH]; rewrite before_first_eq.
  - destruct (prefix sep EmptyString); exact Hempty.
  - destruct (prefix sep (String c rest)) eqn:Hp; [exact Hempty |].
    rewrite contains_eq.
    destruct (prefix sep (String c (before_first sep rest))) eqn:Hq; [| exact IH].
    assert (Hs : before_first sep (String c rest) = String c (before_first sep rest))
      by (rewrite before_first_eq, Hp; reflexivity).
    rewrite <- Hs in Hq. apply prefix_before_first in Hq. congruence.
Qed.

Lemma before_first_without_sep (sep s : string) :
  contains sep s = false -> before_first sep s = s.
Proof.
  induction s as [| c rest IH]; rewrite contains_eq, before_first_eq.
  - destruct (prefix sep EmptyString); reflexivity.
  - destruct (prefix sep (String c rest)); [discriminate |].
    intros H. rewrite (IH H). reflexivity.
Qed.

Lemma dict_contains_getitem {V : Type} (d : certificate.Dict V) (key : string) :
  dict_contains d key = true <-> exists v, certificate.dict_getitem d key = Ok v.
Proof.
  induction d as [| [k v] rest IH]; simpl.
  - split; [discriminate | intros [v H]; discriminate H].
  - destruct (String.eqb k key); simpl; [| exact IH].
    split; [intros _; exists v; reflexivity | reflexivity].
Qed.

Lemma dict_getitem_not_contained {V : Type} (d : certificate.Dict V) (key : string) :
  dict_contains d key = false <-> certificate.dict_getitem d key = Raise (KeyError key).
Proof.
  induction d as [| [k v] rest IH]; simpl.
  - split; reflexivity.
  - destruct (String.eqb k key); simpl; [| exact IH].
    split; discriminate.
Qed.

Lemma dict_getitem_setitem {V : Type} (d : certificate.Dict V) (key : string) (v : V) :
  certificate.dict_getitem (dict_setitem d key v) key = Ok v.
Proof.
  induction d as [| [k old] rest IH]; simpl.
  - rewrite String.eqb_refl. reflexivity.
  - destruct (String.eqb k key) eqn:Hk; simpl; rewrite Hk; [reflexivity | exact IH].
Qed.

Lemma dict_getitem_setitem_other {V : Type} (d : certificate.Dict V)
      (key other : string) (v : V) :
  other <> key ->
  dict_contains d key = true ->
  certificate.dict_getitem (dict_setitem d key v) other = certificate.dict_getitem d other.
Proof.
  intros Hne. induction d as [| [k old] rest IH]; simpl.
  - discriminate.
  - destruct (String.eqb k key) eqn:Hk; simpl.
    + intros _. destruct (String.eqb k other) eqn:Ho; [| reflexivity].
      apply String.eqb_eq in Hk, Ho. congruence.
    + intros Hc. destruct (String.eqb k other); [reflexivity | exact (IH Hc)].
Qed.

Lemma dict_setitem_twice {V : Type} (d : certificate.Dict V) (key : string) (v w : V) :
  dict_setitem (dict_setitem d key v) key w = dict_setitem d key w.
Proof.
  induction d as [| [k old] rest IH]; simpl.
  - rewrite String.eqb_refl. reflexivity.
  - destruct (String.eqb k key) eqn:Hk; simpl; rewrite Hk; [reflexivity |].
    rewrite IH. reflexivity.
Qed.

Lemma dict_contains_setitem {V : Type} (d : certificate.Dict V) (key : string) (v : V) :
  dict_contains (dict_setitem d key v) key = true.
Proof.
  apply dict_contains_getitem. exists v. apply dict_getitem_setitem.
Qed.

Lemma dict_setitem_keys {V : Type} (d : certificate.Dict V) (key : string) (v : V) :
  dict_contains d key = true ->
  map fst (dict_setitem d key v) = map fst d.
Proof.
  induction d as [| [k old] rest IH]; simpl.
  - discriminate.
  - destruct (String.eqb k key); simpl; [reflexivity |].
    intros H. rewrite (IH H). reflexivity.
Qed.

(** The value of each section after the loop of [from_nassl]. *)
Lemma dict_getitem_remove_bit_suffixes
      (cert_dict : certificate.Dict (certificate.Dict string)) (key : string) :
  certificate.dict_getitem (remove_bit_suffixes cert_dict) key =
  match certificate.dict_getitem cert_dict key with
  | Ok section =>
      Ok (if contains "subjectPublicKeyInfo" key then remove_bit_suffix section else section)
  | Raise e => Raise e
  end.
Proof.
  unfold remove_bit_suffixes.
  induction cert_dict as [| [k section] rest IH]; simpl; [reflexivity |].
  destruct (contains "subjectPublicKeyInfo" k) eqn:Hk; simpl;
    destruct (String.eqb k key) eqn:Heq; try exact IH;
    apply String.eqb_eq in Heq; subst key; rewrite Hk; reflexivity.
Qed.

Lemma remove_bit_suffix_twice (section : certificate.Dict string) :
  remove_bit_suffix (remove_bit_suffix section) = remove_bit_suffix section.
Proof.
  destruct (dict_contains section "publicKeySize") eqn:Hc.
  - destruct (certificate.dict_getitem section "publicKeySize") as [size | e] eqn:Hsize.
    + assert (Hone : remove_bit_suffix section =
                     dict_setitem section "publicKeySize" (before_first " bit" size))
        by (unfold remove_bit_suffix; rewrite Hc, Hsize; reflexivity).
      rewrite Hone. unfold remove_bit_suffix.
      rewrite dict_contains_setitem, dict_getitem_setitem, dict_setitem_twice.
      rewrite (before_first_without_sep " bit" (before_first " bit" size)); [reflexivity |].
      apply before_first_has_no_sep. discriminate.
    + assert (Hone : remove_bit_suffix section = section)
        by (unfold remove_bit_suffix; rewrite Hc, Hsize; reflexivity).
      rewrite !Hone. reflexivity.
  - assert (Hone : remove_bit_suffix section = section)
      by (unfold remove_bit_suffix; rewrite Hc; reflexivity).
    rewrite !Hone. reflexivity.
Qed.

(** ** The printable names of the picklable Certificate *)

(** The lookup [as_dict['subject'][key]] raises nothing but [KeyError], so
    the [except KeyError] clause around it handles whatever it raises. *)
Lemma try_subject_entry {A : Type} (self : certificate.Certificate) (key : string)
      (k : string -> Result A) (handler : Result A) :
  try_except_KeyError
    (entry <- (subject <- certificate.dict_getitem (certificate.as_dict self) "subject" ;;
               certificate.dict_getitem subject key) ;;
     k entry)
    handler =
  match (subject <- certificate.dict_getitem (certificate.as_dict self) "subject" ;;
         certificate.dict_getitem subject key) with
  | Ok entry => try_except_KeyError (k entry) handler
  | Raise _ => handler
  end.
Proof.
  destruct (certificate.dict_getitem (certificate.as_dict self) "subject")
    as [subject | e] eqn:Hsubject; cbn [bind].
  - destruct (certificate.dict_getitem subject key) as [entry | e] eqn:Hentry; cbn [bind].
    + reflexivity.
    + rewrite (dict_getitem_raises _ _ Hentry). reflexivity.
  - rewrite (dict_getitem_raises _ _ Hsubject). reflexivity.
Qed.

Lemma printable_subject_name_eq (self : certificate.Certificate) :
  certificate.printable_subject_name self =
  match (subject <- certificate.dict_getitem (certificate.as_dict self) "subject" ;;
         certificate.dict_getitem subject "commonName") with
  | Ok common_name => Ok common_name
  | Raise _ =>
      match (subject <- certificate.dict_getitem (certificate.as_dict self) "subject" ;;
             certificate.dict_getitem subject "organizationalUnitName") with
      | Ok unit => Ok unit
      | Raise _ => Ok "No Common Name"
      end
  end.
Proof.
  unfold certificate.printable_subject_name.
  pose proof (try_subject_entry self "commonName" (fun entry => Ok entry)) as Hcn.
  pose proof (try_subject_entry self "organizationalUnitName" (fun entry => Ok entry)) as Hou.
  destruct (certificate.dict_getitem (certificate.as_dict self) "subject")
    as [subject | e]; cbn [bind] in *.
  - destruct (certificate.dict_getitem subject "commonName") as [cn | e1];
      cbn [bind] in *; [reflexivity |].
    rewrite Hcn.
    destruct (certificate.dict_getitem subject "organizationalUnitName") as [unit | e2];
      cbn [bind] in *; [reflexivity |].
    rewrite Hou. reflexivity.
  - rewrite Hcn, Hou. reflexivity.
Qed.

Lemma printable_issuer_name_eq (self : certificate.Certificate) :
  certificate.printable_issuer_name self =
  match (subject <- certificate.dict_getitem (certificate.as_dict self) "subject" ;;
         certificate.dict_getitem subject "commonName") with
  | Ok common_name => Ok common_name
  | Raise _ =>
      issuer <- certificate.dict_getitem (certificate.as_dict self) "issuer" ;;
      Ok (String.concat " - " (map certificate.format_item issuer))
  end.
Proof.
  unfold certificate.printable_issuer_name.
  pose proof (try_subject_entry self "commonName" (fun entry => Ok entry)) as Hcn.
  destruct (certificate.dict_getitem (certificate.as_dict self) "subject")
    as [subject | e]; cbn [bind] in *.
  - destruct (certificate.dict_getitem subject "commonName") as [cn | e1];
      cbn [bind] in *; [reflexivity | exact (Hcn _)].
  - exact (Hcn _).
Qed.

(** X11: [printable_subject_name] never raises, whatever the dict holds:
    it is the subject's common name when there is one, else the subject's
    organizational unit when there is one, else "No Common Name", which is
    also what a dict without a subject entry gives. *)
Theorem printable_subject_name_never_fails (self : certificate.Certificate) :
  (exists text, certificate.printable_subject_name self = Ok text) /\
  (forall subject common_name,
      certificate.dict_getitem (certificate.as_dict self) "subject" = Ok subject ->
      certificate.dict_getitem subject "commonName" = Ok common_name ->
      certificate.printable_subject_name self = Ok common_name) /\
  (forall subject unit,
      certificate.dict_getitem (certificate.as_dict self) "subject" = Ok subject ->
      dict_contains subject "commonName" = false ->
      certificate.dict_getitem subject "organizationalUnitName" = Ok unit ->
      certificate.printable_subject_name self = Ok unit) /\
  (forall subject,
      certificate.dict_getitem (certificate.as_dict self) "subject" = Ok subject ->
      dict_contains subject "commonName" = false ->
      dict_contains subject "organizationalUnitName" = false ->
      certificate.printable_subject_name self = Ok "No Common Name") /\
  (dict_contains (certificate.as_dict self) "subject" = false ->
   certificate.printable_subject_name self = Ok "No Common Name").
Proof.
  rewrite printable_subject_name_eq. repeat split.
  - destruct (subject <- certificate.dict_getitem (certificate.as_dict self) "subject" ;;
              certificate.dict_getitem subject "commonName"); [eauto |].
    destruct (subject <- certificate.dict_getitem (certificate.as_dict self) "subject" ;;
              certificate.dict_getitem subject "organizationalUnitName"); eauto.
  - intros subject cn Hs Hcn. rewrite Hs. cbn [bind]. rewrite Hcn. reflexivity.
  - intros subject unit Hs Hcn Hou. rewrite Hs. cbn [bind].
    apply dict_getitem_not_contained in Hcn. rewrite Hcn, Hou. reflexivity.
  - intros subject Hs Hcn Hou. rewrite Hs. cbn [bind].
    apply dict_getitem_not_contained in Hcn, Hou. rewrite Hcn, Hou. reflexivity.
  - intros Hs. apply dict_getitem_not_contained in Hs. rewrite Hs. reflexivity.
Qed.

Lemma printable_subject_name_never_fails_witness :
  certificate.printable_subject_name Example.with_organizational_unit = Ok "Example Unit" /\
  certificate.printable_subject_name Sample.without_common_name = Ok "No Common Name".
Proof.
  pose proof (printable_subject_name_never_fails Example.with_organizational_unit)
    as [_ [_ [Hunit _]]].
  pose proof (printable_subject_name_never_fails Sample.without_common_name)
    as [_ [_ [_ [Hnone _]]]].
  split.
  - exact (Hunit [("organizationName", "Example Org");
                  ("organizationalUnitName", "Example Unit")]
                 "Example Unit" eq_refl eq_refl eq_refl).
  - exact (Hnone [("organizationName", "Example Org")] eq_refl eq_refl eq_refl).
Defined.

(** X12: for a certificate whose subject has a common name,
    [printable_issuer_name] and [printable_subject_name] both return that
    common name, the same string, whatever the issuer is. *)
Theorem issuer_name_is_subject_name (self : certificate.Certificate)
        (subject : certificate.Dict string) (common_name : string) :
  certificate.dict_getitem (certificate.as_dict self) "subject" = Ok subject ->
  certificate.dict_getitem subject "commonName" = Ok common_name ->
  certificate.printable_issuer_name self = Ok common_name /\
  certificate.printable_subject_name self = Ok common_name /\
  certificate.printable_issuer_name self = certificate.printable_subject_name self.
Proof.
  intros Hs Hcn. rewrite printable_issuer_name_eq, printable_subject_name_eq.
  rewrite Hs. cbn [bind]. rewrite Hcn. repeat split.
Qed.

Lemma issuer_name_is_subject_name_witness :
  let self := Sample.pickled "text" [("commonName", "Example CA")] in
  certificate.printable_issuer_name self = Ok "example.com" /\
  certificate.printable_subject_name self = Ok "example.com" /\
  certificate.printable_issuer_name self = certificate.printable_subject_name self.
Proof.
  exact (@issuer_name_is_subject_name
           (Sample.pickled "text" [("commonName", "Example CA")])
           [("organizationName", "Example Org"); ("commonName", "example.com")]
           "example.com" eq_refl eq_refl).
Defined.

(** X13: [printable_issuer_name] raises exactly when the subject's common
    name cannot be read and the dict has no issuer entry, and what it raises
    then is KeyError('issuer'). *)
Theorem printable_issuer_name_failure (self : certificate.Certificate) (e : PyException) :
  certificate.printable_issuer_name self = Raise e <->
  e = KeyError "issuer" /\
  dict_contains (certificate.as_dict self) "issuer" = false /\
  forall common_name,
    (subject <- certificate.dict_getitem (certificate.as_dict self) "subject" ;;
     certificate.dict_getitem subject "commonName") <> Ok common_name.
Proof.
  rewrite printable_issuer_name_eq.
  destruct (subject <- certificate.dict_getitem (certificate.as_dict self) "subject" ;;
            certificate.dict_getitem subject "commonName") as [cn | e1].
  - split; [discriminate |]. intros [_ [_ H]]. exfalso. exact (H cn eq_refl).
  - destruct (certificate.dict_getitem (certificate.as_dict self) "issuer")
      as [issuer | e2] eqn:Hissuer; cbn [bind].
    + split; [discriminate |]. intros [_ [Hc _]].
      apply dict_getitem_not_contained in Hc. congruence.
    + pose proof (dict_getitem_raises _ _ Hissuer) as ->. split.
      * intros H. injection H as <-. split; [reflexivity |].
        split; [apply dict_getitem_not_contained; exact Hissuer | discriminate].
      * intros [-> _]. reflexivity.
Qed.

(** ** Equality of the picklable Certificate *)

(** X14: on instances [__eq__] is reflexive, symmetric and transitive; an
    instance never equals a value that is no instance, and [__ne__] is true
    for it. *)
Theorem certificate_eq_is_equivalence (a b c : certificate.Certificate) (v : PyValue) :
  certificate.__eq__ a (certificate.Instance a) = true /\
  certificate.__eq__ a (certificate.Instance b) =
  certificate.__eq__ b (certificate.Instance a) /\
  (certificate.__eq__ a (certificate.Instance b) = true ->
   certificate.__eq__ b (certificate.Instance c) = true ->
   certificate.__eq__ a (certificate.Instance c) = true) /\
  certificate.__eq__ a (certificate.Other v) = false /\
  certificate.__ne__ a (certificate.Other v) = true.
Proof.
  unfold certificate.__ne__, certificate.__eq__.
  split; [apply String.eqb_refl |].
  split; [apply String.eqb_sym |].
  split; [| split; reflexivity].
  intros Hab Hbc. apply String.eqb_eq in Hab, Hbc. apply String.eqb_eq. congruence.
Qed.

(** ** [from_nassl] *)

Lemma remove_bit_suffix_keys (section : certificate.Dict string) :
  map fst (remove_bit_suffix section) = map fst section.
Proof.
  unfold remove_bit_suffix.
  destruct (dict_contains section "publicKeySize") eqn:Hc; [| reflexivity].
  destruct (certificate.dict_getitem section "publicKeySize"); [| reflexivity].
  apply dict_setitem_keys. exact Hc.
Qed.

Lemma remove_bit_suffix_other (section : certificate.Dict string) (key : string) :
  key <> "publicKeySize" ->
  certificate.dict_getitem (remove_bit_suffix section) key =
  certificate.dict_getitem section key.
Proof.
  intros Hne. unfold remove_bit_suffix.
  destruct (dict_contains section "publicKeySize") eqn:Hc; [| reflexivity].
  destruct (certificate.dict_getitem section "publicKeySize"); [| reflexivity].
  apply dict_getitem_setitem_other; assumption.
Qed.

(** X15: in the Certificate built by [from_nassl], the publicKeySize of
    every section whose name contains 'subjectPublicKeyInfo' is the source's
    value cut before its first " bit" ("2048 bit" becomes "2048"), so it
    holds no " bit" any more; the other entries of the section are the
    source's. *)
Theorem from_nassl_public_key_size (strip : string -> string)
        (nassl_x509_certificate : nassl.X509Certificate)
        (key : string) (section : certificate.Dict string) (size : string) :
  certificate.dict_getitem (nassl.as_dict nassl_x509_certificate) key = Ok section ->
  contains "subjectPublicKeyInfo" key = true ->
  certificate.dict_getitem section "publicKeySize" = Ok size ->
  exists section',
    certificate.dict_getitem
      (certificate.as_dict (from_nassl strip nassl_x509_certificate)) key = Ok section' /\
    certificate.dict_getitem section' "publicKeySize" = Ok (before_first " bit" size) /\
    contains " bit" (before_first " bit" size) = false /\
    map fst section' = map fst section /\
    forall other,
      other <> "publicKeySize" ->
      certificate.dict_getitem section' other = certificate.dict_getitem section other.
Proof.
  intros Hsection Hkey Hsize. exists (remove_bit_suffix section).
  split; [| split; [| split; [| split]]].
  - simpl. rewrite dict_getitem_remove_bit_suffixes, Hsection, Hkey. reflexivity.
  - unfold remove_bit_suffix.
    assert (Hc : dict_contains section "publicKeySize" = true)
      by (apply dict_contains_getitem; eauto).
    rewrite Hc, Hsize. apply dict_getitem_setitem.
  - apply before_first_has_no_sep. discriminate.
  - apply remove_bit_suffix_keys.
  - intros other Hne. apply remove_bit_suffix_other. exact Hne.
Qed.

Lemma from_nassl_public_key_size_witness :
  exists section,
    certificate.dict_getitem
      (certificate.as_dict (from_nassl (fun s => s) Example.parsed_x509))
      "subjectPublicKeyInfo" = Ok section /\
    certificate.dict_getitem section "publicKeySize" = Ok "2048" /\
    certificate.dict_getitem section "publicKeyAlgorithm" = Ok "rsaEncryption".
Proof.
  destruct (@from_nassl_public_key_size
              (fun s => s) Example.parsed_x509 "subjectPublicKeyInfo"
              [("publicKeyAlgorithm", "rsaEncryption"); ("publicKeySize", "2048 bit")]
              "2048 bit" eq_refl eq_refl eq_refl)
    as [section [Hsection [Hsize [_ [_ Hother]]]]].
  exists section. split; [exact Hsection |]. split; [exact Hsize |].
  rewrite Hother; [reflexivity | discriminate].
Defined.

(** X16: [from_nassl] keeps the names of the sections of the dict and their
    order, leaves every section whose name does not contain
    'subjectPublicKeyInfo' as it is, and copies the text form, the
    fingerprint and the pin unchanged. *)
Theorem from_nassl_keeps_other_sections (strip : string -> string)
        (nassl_x509_certificate : nassl.X509Certificate) :
  let built := from_nassl strip nassl_x509_certificate in
  map fst (certificate.as_dict built) = map fst (nassl.as_dict nassl_x509_certificate) /\
  (forall key,
      contains "subjectPublicKeyInfo" key = false ->
      certificate.dict_getitem (certificate.as_dict built) key =
      certificate.dict_getitem (nassl.as_dict nassl_x509_certificate) key) /\
  (forall key,
      dict_contains (certificate.as_dict built) key =
      dict_contains (nassl.as_dict nassl_x509_certificate) key) /\
  certificate.as_text built = nassl.as_text nassl_x509_certificate /\
  certificate.sha1_fingerprint built = nassl.get_SHA1_fingerprint nassl_x509_certificate /\
  certificate.hpkp_pin built = nassl.get_hpkp_pin nassl_x509_certificate.
Proof.
  cbv zeta. simpl. split; [| split; [| split; [| repeat split]]].
  - unfold remove_bit_suffixes. rewrite map_map. apply map_ext.
    intros [k section]. simpl.
    destruct (contains "subjectPublicKeyInfo" k); reflexivity.
  - intros key Hkey. rewrite dict_getitem_remove_bit_suffixes, Hkey.
    destruct (certificate.dict_getitem (nassl.as_dict nassl_x509_certificate) key);
      reflexivity.
  - intros key. unfold remove_bit_suffixes.
    induction (nassl.as_dict nassl_x509_certificate) as [| [k section] rest IH];
      simpl; [reflexivity |].
    rewrite IH. destruct (contains "subjectPublicKeyInfo" k); reflexivity.
Qed.

(** X17: the loop of [from_nassl] is idempotent: a dict whose sizes were
    cut once is left unchanged by a second pass. *)
Theorem remove_bit_suffixes_idempotent
        (cert_dict : certificate.Dict (certificate.Dict string)) :
  remove_bit_suffixes (remove_bit_suffixes cert_dict) = remove_bit_suffixes cert_dict.
Proof.
  unfold remove_bit_suffixes. rewrite map_map. apply map_ext.
  intros [k section]. simpl.
  destruct (contains "subjectPublicKeyInfo" k) eqn:Hk; simpl; rewrite Hk; [| reflexivity].
  rewrite remove_bit_suffix_twice. reflexivity.
Qed.

(** X18: two Certificates built by [from_nassl] compare equal exactly when
    the stripped PEM encodings of their sources are the same string, and
    then they have the same hash; nothing else of the sources matters. *)
Theorem from_nassl_equality {builtins : PyBuiltins} (strip : string -> string)
        (a b : nassl.X509Certificate) :
  (certificate.__eq__ (from_nassl strip a) (certificate.Instance (from_nassl strip b)) = true
   <-> strip (nassl.as_pem a) = strip (nassl.as_pem b)) /\
  (strip (nassl.as_pem a) = strip (nassl.as_pem b) ->
   certificate.__hash__ (from_nassl strip a) = certificate.__hash__ (from_nassl strip b)).
Proof.
  unfold certificate.__eq__, certificate.__hash__. simpl. split.
  - apply String.eqb_eq.
  - intros ->. reflexivity.
Qed.

(** ** How [result_to_console_output] fails *)

(** X1: [result_to_console_output] fails at its first failing step, in the
    order of the source.  An empty received chain raises IndexError whatever
    else the scan holds.  Once the certificate text is produced, a Symantec
    field outside its domain raises RuntimeError whatever the OCSP fields
    hold; with the field in its domain a failure of the OCSP lines is the
    failure of the output, and an OCSP response that comes without a status
    raises AttributeError. *)
Theorem rendering_failures {connector : ScanCommandCliConnector} {builtins : PyBuiltins}
        (result : CertificateInfoScanResult) :
  (received_certificate_chain result = [] ->
   result_to_console_output result = Raise IndexError) /\
  (forall basic,
      _get_basic_certificate_text result = Ok basic ->
      in_declared_domain (verified_chain_has_legacy_symantec_anchor result) = false ->
      result_to_console_output result = Raise (RuntimeError "Should never happen")) /\
  (forall basic,
      _get_basic_certificate_text result = Ok basic ->
      in_declared_domain (verified_chain_has_legacy_symantec_anchor result) = true ->
      (forall e, ocsp_resp_txt result = Raise e -> result_to_console_output result = Raise e) /\
      (ocsp_response result <> None ->
       ocsp_response_status result = None ->
       result_to_console_output result = Raise AttributeError)).
Proof.
  assert (Hocsp : forall basic,
             _get_basic_certificate_text result = Ok basic ->
             in_declared_domain (verified_chain_has_legacy_symantec_anchor result) = true ->
             forall e, ocsp_resp_txt result = Raise e ->
                       result_to_console_output result = Raise e).
  { intros basic Hbasic Hd e He. unfold result_to_console_output.
    rewrite Hbasic. cbn [bind].
    apply symantec_str_in_domain in Hd. destruct Hd as [text ->]. cbn [bind].
    rewrite He. reflexivity. }
  split; [| split].
  - intros Hc. unfold result_to_console_output.
    rewrite (basic_text_of_empty_chain _ Hc). reflexivity.
  - intros basic Hbasic Hd. unfold result_to_console_output.
    rewrite Hbasic. cbn [bind]. unfold symantec_str.
    destruct (verified_chain_has_legacy_symantec_anchor result) as [| [|] | n | s];
      try discriminate Hd; reflexivity.
  - intros basic Hbasic Hd. split; [exact (Hocsp basic Hbasic Hd) |].
    intros Hresponse Hstatus. apply (Hocsp basic Hbasic Hd).
    unfold ocsp_resp_txt.
    destruct (ocsp_response result) as [response |]; [| congruence].
    rewrite Hstatus. reflexivity.
Qed.

Lemma rendering_failures_witness :
  @result_to_console_output console_connector plain_builtins
    (Sample.untrusted_scan [] (PyInt 1) None (Some Sample.empty_response) (Some SUCCESSFUL)) =
  Raise IndexError /\
  @result_to_console_output console_connector plain_builtins
    (Sample.untrusted_scan Sample.chain (PyInt 1) None (Some Sample.good_response) None) =
  Raise (RuntimeError "Should never happen") /\
  @result_to_console_output console_connector plain_builtins
    (Sample.untrusted_scan Sample.chain PyNone None (Some Sample.good_response) None) =
  Raise AttributeError.
Proof.
  split; [| split].
  - exact (proj1 (@rendering_failures console_connector plain_builtins
                    (Sample.untrusted_scan [] (PyInt 1) None (Some Sample.empty_response)
                                           (Some SUCCESSFUL)))
                 eq_refl).
  - exact (proj1 (proj2 (@rendering_failures console_connector plain_builtins
                     (Sample.untrusted_scan Sample.chain (PyInt 1) None
                                            (Some Sample.good_response) None)))
                 _ eq_refl eq_refl).
  - refine (proj2 (proj2 (proj2 (@rendering_failures console_connector plain_builtins
                     (Sample.untrusted_scan Sample.chain PyNone None
                                            (Some Sample.good_response) None)))
                         _ eq_refl eq_refl)
                  _ eq_refl).
    discriminate.
Defined.

(** ** The lines of the trust stores *)

Lemma nth_error_in_middle {A : Type} (front middle back : list A) (i : nat) (a : A) :
  nth_error middle i = Some a ->
  nth_error (front ++ middle ++ back) (List.length front + i) = Some a.
Proof.
  intros H. induction front as [| x front IH]; simpl.
  - rewrite nth_error_app1; [exact H |].
    apply nth_error_Some. congruence.
  - exact IH.
Qed.

(** X2: the verdicts of the trust stores are rendered one line per path
    validation result, in the order of the results, without sorting or
    merging: the line of the i-th result is line 5 + n + i of the output,
    where n is the number of lines of the certificate text, and the output
    has 17 + n lines besides the store lines and the OCSP lines. *)
Theorem store_lines_keep_input_order
        {connector : ScanCommandCliConnector} {builtins : PyBuiltins}
        (result : CertificateInfoScanResult) :
  renders result = true ->
  exists lines basic ocsp,
    result_to_console_output result = Ok lines /\
    _get_basic_certificate_text result = Ok basic /\
    ocsp_resp_txt result = Ok ocsp /\
    (forall i path_result,
        nth_error (path_validation_results result) i = Some path_result ->
        nth_error lines (5 + List.length basic + i) =
        Some (path_validation_line result path_result)) /\
    List.length lines =
    (17 + List.length basic + List.length (path_validation_results result)
     + List.length ocsp)%nat.
Proof.
  intros Hr. apply renders_iff in Hr. destruct Hr as [lines Hlines].
  pose proof Hlines as Hinv. apply output_inv in Hinv.
  destruct Hinv as [basic [symantec [ocsp [Hbasic [Hsym [Hocsp Heq]]]]]].
  exists lines, basic, ocsp. repeat (split; [assumption |]). subst lines. split.
  - intros i path_result Hi. unfold trust_lines.
    repeat rewrite <- app_assoc.
    set (front := ([_format_title "Certificate Information"] ++ basic ++
                   [ ""; _format_subtitle "Trust";
                     _format_field "Hostname used for SNI:"
                       (hostname_used_for_server_name_indication result);
                     _format_field "Hostname Validation:"
                       (hostname_validation_text result) ])%list).
    assert (Hlen : (5 + List.length basic = List.length front)%nat).
    { unfold front. rewrite !length_app. simpl. lia. }
    rewrite Hlen.
    replace (_ ++ _ ++ _ ++ _ ++ _ ++ _)%list
      with (front ++ map (path_validation_line result) (path_validation_results result) ++
            ([_format_field "Symantec 2018 Deprecation:" symantec] ++
             chain_and_extension_lines result ++ ocsp))%list.
    + apply nth_error_in_middle. apply map_nth_error. exact Hi.
    + unfold front. repeat rewrite <- app_assoc. reflexivity.
  - unfold trust_lines, chain_and_extension_lines.
    rewrite !length_app, length_map. simpl. lia.
Qed.

Lemma store_lines_keep_input_order_witness :
  exists lines,
    @result_to_console_output console_connector plain_builtins (Sample.plain_scan None) =
    Ok lines /\
    nth_error lines 16 =
    Some "       Mozilla CA Store (v1):             FAILED - Certificate is NOT Trusted: unable to get local issuer certificate" /\
    nth_error lines 17 =
    Some "       Windows CA Store (v2):             FAILED - Certificate is NOT Trusted: unable to get local issuer certificate" /\
    List.length lines = 31%nat.
Proof.
  destruct (@store_lines_keep_input_order console_connector plain_builtins
              (Sample.plain_scan None) eq_refl)
    as [lines [basic [ocsp [Hlines [Hbasic [Hocsp [Hnth Hlen]]]]]]].
  injection Hbasic as <-. injection Hocsp as <-.
  exists lines. split; [exact Hlines |].
  split; [exact (Hnth 0%nat (Sample.untrusted Sample.mozilla) eq_refl) |].
  split; [exact (Hnth 1%nat (Sample.untrusted Sample.windows) eq_refl) | exact Hlen].
Defined.

(** ** Flags of the verified chain *)

(** X3: with a verified chain, the anchor line is the warning exactly when
    the anchor flag is True and the SHA-1 line is the insecure one exactly
    when the SHA-1 flag is True; a flag that is False or None gives the OK
    text of its line. *)
Theorem flags_without_value_render_as_ok (result : CertificateInfoScanResult) :
  truthy_list (verified_certificate_chain result) = true ->
  (chain_with_anchor_txt result =
   "WARNING - Received certificate chain contains the anchor certificate" <->
   received_chain_contains_anchor_certificate result = Some true) /\
  (received_chain_contains_anchor_certificate result <> Some true ->
   chain_with_anchor_txt result = "OK - Anchor certificate not sent") /\
  (sha1_text result =
   "INSECURE - SHA1-signed certificate in the verified certificate chain" <->
   verified_chain_has_sha1_signature result = Some true) /\
  (verified_chain_has_sha1_signature result <> Some true ->
   sha1_text result =
   "OK - No SHA1-signed certificate in the verified certificate chain").
Proof.
  intros Hchain. unfold chain_with_anchor_txt, sha1_text. rewrite Hchain.
  split; [| split; [| split]].
  - destruct (received_chain_contains_anchor_certificate result) as [[|] |]; simpl;
      split; intros H; try reflexivity; discriminate H.
  - destruct (received_chain_contains_anchor_certificate result) as [[|] |]; simpl;
      intros H; try reflexivity; congruence.
  - destruct (verified_chain_has_sha1_signature result) as [[|] |]; simpl;
      split; intros H; try reflexivity; discriminate H.
  - destruct (verified_chain_has_sha1_signature result) as [[|] |]; simpl;
      intros H; try reflexivity; congruence.
Qed.

Lemma flags_without_value_render_as_ok_witness :
  let result := Example.trusted_scan (Some Sample.chain) None None None None None in
  chain_with_anchor_txt result = "OK - Anchor certificate not sent" /\
  sha1_text result = "OK - No SHA1-signed certificate in the verified certificate chain".
Proof.
  pose proof (@flags_without_value_render_as_ok
                (Example.trusted_scan (Some Sample.chain) None None None None None)
                eq_refl) as [_ [Hanchor [_ Hsha1]]].
  split; [apply Hanchor | apply Hsha1]; discriminate.
Defined.

(** X4: the three lines about the verified chain read the
    no-verified-chain error exactly when the verified chain is None or an
    empty list, whatever the flags hold; a verified chain with certificates
    is rendered as the short names of its subjects joined by " --> ". *)
Theorem empty_verified_chain_is_no_chain (result : CertificateInfoScanResult) :
  (sha1_text result = NO_VERIFIED_CHAIN_ERROR_TXT <->
   verified_certificate_chain result = None \/ verified_certificate_chain result = Some []) /\
  (chain_with_anchor_txt result = NO_VERIFIED_CHAIN_ERROR_TXT <->
   verified_certificate_chain result = None \/ verified_certificate_chain result = Some []) /\
  (verified_certificate_chain result = None \/ verified_certificate_chain result = Some [] ->
   verified_chain_txt result = NO_VERIFIED_CHAIN_ERROR_TXT) /\
  (forall leaf rest,
      verified_certificate_chain result = Some (leaf :: rest) ->
      verified_chain_txt result =
      String.concat " --> "
        (map (fun cert => _get_name_as_short_text (x509.subject cert)) (leaf :: rest))).
Proof.
  unfold sha1_text, chain_with_anchor_txt, verified_chain_txt.
  destruct (verified_certificate_chain result) as [[| leaf rest] |]; simpl.
  - repeat split; auto; intros; discriminate.
  - split; [| split; [| split]].
    + destruct (truthy (verified_chain_has_sha1_signature result)); simpl;
        split; try discriminate; intros [H | H]; discriminate H.
    + destruct (truthy (received_chain_contains_anchor_certificate result)); simpl;
        split; try discriminate; intros [H | H]; discriminate H.
    + intros [H | H]; discriminate H.
    + intros l r H. injection H as <- <-. reflexivity.
  - repeat split; auto; intros; discriminate.
Qed.

Lemma empty_verified_chain_is_no_chain_witness :
  let result := Example.trusted_scan (Some []) (Some true) (Some true) None None None in
  sha1_text result = NO_VERIFIED_CHAIN_ERROR_TXT /\
  chain_with_anchor_txt result = NO_VERIFIED_CHAIN_ERROR_TXT /\
  verified_chain_txt result = NO_VERIFIED_CHAIN_ERROR_TXT.
Proof.
  pose proof (@empty_verified_chain_is_no_chain
                (Example.trusted_scan (Some []) (Some true) (Some true) None None None))
    as [Hsha1 [Hanchor [Htxt _]]].
  split; [apply Hsha1; right; reflexivity |].
  split; [apply Hanchor; right; reflexivity | apply Htxt; right; reflexivity].
Defined.

(** ** The OCSP lines *)

(** X5: for a successful response whose status text contains "successful"
    and which has at least one entry, the OCSP lines are the status, trust
    and responder lines followed by the certificate status, serial number,
    this-update and next-update of the first entry; the later entries are
    not rendered. *)
Theorem ocsp_details_of_first_entry {connector : ScanCommandCliConnector}
        (result : CertificateInfoScanResult) (response : OcspResponseDict)
        (first : SingleResponse) (rest : list SingleResponse) :
  ocsp_response result = Some response ->
  ocsp_response_status result = Some SUCCESSFUL ->
  contains "successful" (responseStatus response) = true ->
  responses response = first :: rest ->
  ocsp_resp_txt result =
  Ok [ _format_field "OCSP Response Status:" (responseStatus response);
       _format_field "Validation w/ Mozilla Store:"
         (if truthy (ocsp_response_is_trusted result)
          then "OK - Response is trusted" else "FAILED - Response is NOT trusted");
       _format_field "Responder Id:" (responderID response);
       _format_field "Cert Status:" (certStatus first);
       _format_field "Cert Serial Number:" (serialNumber (certID first));
       _format_field "This Update:" (thisUpdate first);
       _format_field "Next Update:" (nextUpdate first) ].
Proof.
  intros Hresp Hstatus Hsub Hresponses. unfold ocsp_resp_txt.
  rewrite Hresp, Hstatus. simpl. rewrite Hsub, Hresponses. reflexivity.
Qed.

Lemma ocsp_details_of_first_entry_witness :
  @ocsp_resp_txt console_connector
    (Example.trusted_scan (Some Sample.chain) None None
                          (Some Example.two_responses) (Some SUCCESSFUL) None) =
  Ok [ "       OCSP Response Status:              successful";
       "       Validation w/ Mozilla Store:       FAILED - Response is NOT trusted";
       "       Responder Id:                      C = US, O = Example, CN = OCSP";
       "       Cert Status:                       good";
       "       Cert Serial Number:                1234";
       "       This Update:                       Mar  7 00:00:00 2019 GMT";
       "       Next Update:                       Mar 14 00:00:00 2019 GMT" ].
Proof.
  exact (@ocsp_details_of_first_entry console_connector
           (Example.trusted_scan (Some Sample.chain) None None
                                 (Some Example.two_responses) (Some SUCCESSFUL) None)
           Example.two_responses _ _ eq_refl eq_refl eq_refl eq_refl).
Defined.

(** X6: whenever the OCSP lines are produced there are one, three or seven
    of them: one without a response or with a status other than successful,
    seven for a successful response whose status text contains "successful",
    three for a successful response whose status text does not. *)
Theorem ocsp_line_count {connector : ScanCommandCliConnector}
        (result : CertificateInfoScanResult) :
  ocsp_renders result = true ->
  exists lines,
    ocsp_resp_txt result = Ok lines /\
    List.length lines =
    match ocsp_response result, ocsp_response_status result with
    | Some response, Some SUCCESSFUL =>
        if contains "successful" (responseStatus response) then 7%nat else 3%nat
    | _, _ => 1%nat
    end.
Proof.
  unfold ocsp_renders, ocsp_resp_txt.
  destruct (ocsp_response result) as [response |]; [| intros _; eexists; split; reflexivity].
  destruct (ocsp_response_status result) as [status |]; [| discriminate].
  destruct status; simpl; try (intros _; eexists; split; reflexivity).
  destruct (contains "successful" (responseStatus response)); simpl;
    [| intros _; eexists; split; reflexivity].
  destruct (responses response) as [| first rest]; simpl; [discriminate |].
  intros _. eexists. split; reflexivity.
Qed.

Lemma ocsp_line_count_witness :
  exists lines,
    @ocsp_resp_txt console_connector
      (Example.trusted_scan (Some Sample.chain) None None
                            (Some Example.two_responses) (Some SUCCESSFUL) None) =
    Ok lines /\
    List.length lines = 7%nat.
Proof.
  exact (@ocsp_line_count console_connector
           (Example.trusted_scan (Some Sample.chain) None None
                                 (Some Example.two_responses) (Some SUCCESSFUL) None)
           eq_refl).
Defined.

(** ** The certificate text *)

(** X7: the certificate text is read off the first certificate of the
    received chain only: two scans whose received chains start with the same
    certificate have the same certificate text, whatever else they hold. *)
Theorem basic_text_reads_leaf_only
        {connector : ScanCommandCliConnector} {builtins : PyBuiltins}
        (one other : CertificateInfoScanResult)
        (leaf : x509.Certificate) (rest rest' : list x509.Certificate) :
  received_certificate_chain one = leaf :: rest ->
  received_certificate_chain other = leaf :: rest' ->
  _get_basic_certificate_text one = _get_basic_certificate_text other.
Proof.
  intros Hone Hother.
  rewrite (basic_text_of_chain _ Hone), (basic_text_of_chain _ Hother). reflexivity.
Qed.

Lemma basic_text_reads_leaf_only_witness :
  @_get_basic_certificate_text console_connector plain_builtins (Sample.plain_scan None) =
  @_get_basic_certificate_text console_connector plain_builtins
    (Example.trusted_scan (Some Sample.chain) None None None None None).
Proof.
  exact (@basic_text_reads_leaf_only console_connector plain_builtins
           (Sample.plain_scan None)
           (Example.trusted_scan (Some Sample.chain) None None None None None)
           Sample.leaf _ _ eq_refl eq_refl).
Defined.

(** X8: whenever the certificate text is produced, the received chain has
    a first certificate and the text has nine lines, the last of them the
    subject-alternative-names line, plus two lines for an elliptic curve or
    RSA key; a key of another type adds no line. *)
Theorem basic_text_line_count
        {connector : ScanCommandCliConnector} {builtins : PyBuiltins}
        (result : CertificateInfoScanResult) (lines : list string) :
  _get_basic_certificate_text result = Ok lines ->
  exists leaf rest,
    received_certificate_chain result = leaf :: rest /\
    List.length lines =
    (9 + match x509.public_key leaf with
         | x509.OtherPublicKey _ => 0
         | _ => 2
         end)%nat.
Proof.
  intros Hlines.
  destruct (received_certificate_chain result) as [| leaf rest] eqn:Hchain.
  - rewrite (basic_text_of_empty_chain _ Hchain) in Hlines. discriminate Hlines.
  - exists leaf, rest. split; [reflexivity |].
    rewrite (basic_text_of_chain _ Hchain) in Hlines.
    assert (Hl : lines = (basic_fields leaf ++
                          [_format_field "DNS Subject Alternative Names:"
                             (str_of_list (extract_dns_subject_alternative_names leaf))])%list)
      by congruence.
    rewrite Hl. unfold basic_fields. rewrite !length_app.
    destruct (x509.public_key leaf); reflexivity.
Qed.

Lemma basic_text_line_count_witness :
  exists lines,
    @_get_basic_certificate_text console_connector plain_builtins
      (Sample.untrusted_scan [Sample.leaf_without_san] PyNone None None None) = Ok lines /\
    List.length lines = 11%nat.
Proof.
  eexists. split; [reflexivity |].
  destruct (@basic_text_line_count console_connector plain_builtins
              (Sample.untrusted_scan [Sample.leaf_without_san] PyNone None None None)
              _ eq_refl) as [leaf [rest [Hchain Hlength]]].
  injection Hchain as <- _. exact Hlength.
Defined.

(** ** Short names *)

(** X9: the short text of a name is the value of its first Common Name
    attribute, whatever attributes and further Common Names follow it, and
    the RFC 4514 string of the name when it has no Common Name attribute. *)
Theorem short_text_is_first_common_name (name_field : x509.Name) :
  (forall before common_name after,
      x509.attributes name_field = (before ++ common_name :: after)%list ->
      x509.oid common_name = x509.COMMON_NAME ->
      Forall (fun attribute => x509.oid attribute <> x509.COMMON_NAME) before ->
      _get_name_as_short_text name_field = x509.value common_name) /\
  (Forall (fun attribute => x509.oid attribute <> x509.COMMON_NAME)
          (x509.attributes name_field) ->
   _get_name_as_short_text name_field = x509.rfc4514_string name_field).
Proof.
  assert (Hnone : forall attributes,
             Forall (fun attribute => x509.oid attribute <> x509.COMMON_NAME) attributes ->
             filter (fun a => String.eqb (x509.oid a) x509.COMMON_NAME) attributes = []).
  { induction 1 as [| attribute attributes Hne _ IH]; simpl; [reflexivity |].
    apply String.eqb_neq in Hne. rewrite Hne. exact IH. }
  unfold _get_name_as_short_text, get_common_names. split.
  - intros before common_name after -> Hoid Hbefore.
    rewrite filter_app, (Hnone _ Hbefore). simpl.
    apply String.eqb_eq in Hoid. rewrite Hoid. reflexivity.
  - intros Hall. rewrite (Hnone _ Hall). reflexivity.
Qed.

Lemma short_text_is_first_common_name_witness :
  _get_name_as_short_text Example.two_common_names = "first.example.com".
Proof.
  refine (proj1 (short_text_is_first_common_name Example.two_common_names)
                [ {| x509.oid := "2.5.4.10"; x509.value := "Example Org" |} ]
                {| x509.oid := x509.COMMON_NAME; x509.value := "first.example.com" |}
                _ eq_refl eq_refl _).
  repeat constructor. discriminate.
Defined.

(** ** The command line options *)

(** X10: [find_cli_options_in_command_line] passes on a failure of the base
    class and, when the base class returns, its verdict on the scan command;
    the extra arguments of the base class are not passed on.  A missing
    certinfo_ca_file, None, False or an empty string give no extra arguments
    and the constructor is not called; the value True raises TypeError; for
    a non-empty string the constructor is called with its path: what it
    returns is passed on, a KeyError it raises is caught and gives no extra
    arguments, and any other exception, as the ValueError for a path that is
    no file, leaves the method. *)
Theorem find_cli_options_cases
        (PosixPath ExtraArguments : Type) (Path : string -> PosixPath)
        (CertificateInfoExtraArguments : PosixPath -> CliResult ExtraArguments)
        (super_find : certificate.Dict CliValue -> CliResult (bool * option ExtraArguments))
        (parsed_command_line : certificate.Dict CliValue) :
  let found :=
      find_cli_options_in_command_line Path CertificateInfoExtraArguments super_find
                                       parsed_command_line in
  let certinfo_ca_file := certificate.dict_getitem parsed_command_line "certinfo_ca_file" in
  (forall e, super_find parsed_command_line = CliRaise e -> found = CliRaise e) /\
  (forall is_scan_cmd_enabled base_arguments,
      super_find parsed_command_line = CliReturn (is_scan_cmd_enabled, base_arguments) ->
      (dict_contains parsed_command_line "certinfo_ca_file" = false ->
       found = CliReturn (is_scan_cmd_enabled, None)) /\
      (forall v,
          certinfo_ca_file = Ok v ->
          v = CliNone \/ v = CliBool false \/ v = CliStr "" ->
          found = CliReturn (is_scan_cmd_enabled, None)) /\
      (certinfo_ca_file = Ok (CliBool true) ->
       found = CliRaise (TypeError "Expected a str for certinfo_ca_file but received True")) /\
      (forall text,
          certinfo_ca_file = Ok (CliStr text) ->
          text <> "" ->
          (forall extra_arguments,
              CertificateInfoExtraArguments (Path text) = CliReturn extra_arguments ->
              found = CliReturn (is_scan_cmd_enabled, Some extra_arguments)) /\
          (forall key,
              CertificateInfoExtraArguments (Path text) = CliRaise (CliKeyError key) ->
              found = CliReturn (is_scan_cmd_enabled, None)) /\
          (forall e,
              CertificateInfoExtraArguments (Path text) = CliRaise e ->
              (forall key, e <> CliKeyError key) ->
              found = CliRaise e))).
Proof.
  cbv zeta. unfold find_cli_options_in_command_line. split.
  - intros e ->. reflexivity.
  - intros is_scan_cmd_enabled base_arguments ->. split; [| split; [| split]].
    + intros Hc. apply dict_getitem_not_contained in Hc. rewrite Hc. reflexivity.
    + intros v -> [-> | [-> | ->]]; reflexivity.
    + intros ->. reflexivity.
    + intros text -> Hne. simpl. apply String.eqb_neq in Hne. rewrite Hne. simpl.
      split; [| split].
      * intros extra_arguments ->. reflexivity.
      * intros key ->. reflexivity.
      * intros e -> Hkey. destruct e as [msg | msg | key]; try reflexivity.
        exfalso. exact (Hkey key eq_refl).
Qed.

Lemma find_cli_options_cases_witness :
  let find :=
      find_cli_options_in_command_line (fun text => text) Example.new_extra_arguments
                                       Example.base_options in
  find [("certinfo", CliBool true); ("certinfo_ca_file", CliStr "/etc/ssl/roots.pem")] =
  CliReturn (true, Some {| Example.custom_ca_file := "/etc/ssl/roots.pem" |}) /\
  find [("certinfo", CliBool true); ("certinfo_ca_file", CliStr "/etc/ssl/missing.pem")] =
  CliRaise (ValueError "Could not open supplied CA file at /etc/ssl/missing.pem") /\
  find [("certinfo", CliBool true)] = CliReturn (true, None) /\
  find [("certinfo_ca_file", CliBool true)] =
  CliRaise (TypeError "Expected a str for certinfo_ca_file but received True").
Proof.
  cbv zeta. split; [| split; [| split]].
  - refine (proj1 (proj2 (proj2 (proj2 (proj2
             (@find_cli_options_cases _ _ (fun text => text) Example.new_extra_arguments
                Example.base_options
                [("certinfo", CliBool true);
                 ("certinfo_ca_file", CliStr "/etc/ssl/roots.pem")])
             true None eq_refl)))
             "/etc/ssl/roots.pem" eq_refl _) _ eq_refl).
    discriminate.
  - refine (proj2 (proj2 (proj2 (proj2 (proj2 (proj2
             (@find_cli_options_cases _ _ (fun text => text) Example.new_extra_arguments
                Example.base_options
                [("certinfo", CliBool true);
                 ("certinfo_ca_file", CliStr "/etc/ssl/missing.pem")])
             true None eq_refl)))
             "/etc/ssl/missing.pem" eq_refl _)) _ eq_refl _).
    + discriminate.
    + intros key. discriminate.
  - exact (proj1 (proj2 (@find_cli_options_cases _ _ (fun text => text)
                           Example.new_extra_arguments Example.base_options
                           [("certinfo", CliBool true)])
                        true None eq_refl)
                 eq_refl).
  - exact (proj1 (proj2 (proj2 (proj2 (@find_cli_options_cases _ _ (fun text => text)
                           Example.new_extra_arguments Example.base_options
                           [("certinfo_ca_file", CliBool true)])
                        true None eq_refl)))
                 eq_refl).
Defined.
